(** * liftbridge-cli: the command handlers of [cli/cli.go]

    A shallow embedding of the command-dispatch and session layer of the
    Liftbridge command line client, and the properties of it that the
    specification states.

    The handlers are Go functions that talk to a broker through the
    [lift.Client] interface, print to standard output and return an
    [error].  They are embedded as state-passing functions over a [World]
    that holds the broker behind the client, the log of client calls made so
    far and the text printed so far.  The [context.Context] arguments (a
    fixed three second deadline, or a cancellable background context) carry
    no data the handlers look at: a call that runs out of time is a call
    that returns an error, which the theorems below quantify over.

    Embedded are [connectToEndpoint], [ensureStreamCreated],
    [subscribeToStream], [create], [subscribe], [subscribeActivityStream],
    [ackPolicyStringToAckPolicy], [publish], [intToInt32Slice] and
    [fetchCursor]. *)

From stdpp Require Import base strings gmap list pretty.
From Stdlib Require Import ZArith Lia.

Local Open Scope Z_scope.

(** ** Errors *)

(** Go [error] values.  [ErrStreamExists] is the sentinel
    [lift.ErrStreamExists], which the code compares by identity;
    [ClientError] is any other error value handed out by the client library
    or the protobuf decoder; [Errorf] is [fmt.Errorf] without [%w];
    [Wrapf msg cause] is [fmt.Errorf("<msg>: %w", cause)].  A Go [error]
    that may be [nil] is an [option error]. *)
Inductive error : Type :=
| ErrStreamExists
| ClientError (msg : string)
| Errorf (msg : string)
| Wrapf (msg : string) (cause : error).

Fixpoint Error (e : error) : string :=
  match e with
  | ErrStreamExists => "stream already exists"
  | ClientError msg => msg
  | Errorf msg => msg
  | Wrapf msg cause => msg +:+ ": " +:+ Error cause
  end.

(** [err != lift.ErrStreamExists] for a non-nil [err]. *)
Definition isErrStreamExists (e : error) : bool :=
  match e with
  | ErrStreamExists => true
  | _ => false
  end.

(** A Go function returning [(T, error)]. *)
Inductive result (A : Type) : Type :=
| Ok (a : A)
| Err (e : error).
Arguments Ok {A} a.
Arguments Err {A} e.

(** ** Flags *)

Definition activityStreamName : string := "__activity".
Definition defaultStreamName : string := "some-stream".
Definition defaultMessageValue : string := "some-value".
Definition defaultCursorID : string := "some-cursor".
Definition defaultAckPolicy : string := "leader".
Definition defaultAddress : string := "127.0.0.1:9292".

(** The parsed flags of one invocation, what [c.String], [c.Bool], [c.Int],
    [c.Int64] and [c.IntSlice] of a [*cli.Context] return for each flag.
    A Go [int] is taken as 64 bits wide. *)
Record Context : Type := mkContext {
  addressFlag : string;
  streamFlag : string;
  subjectFlag : string;
  messageFlag : string;
  createStreamFlag : bool;
  readonlyFlag : bool;
  resumeAllFlag : bool;
  partitionsFlag : list Z;
  partitionFlag : Z;
  cursorIDFlag : string;
  offsetFlag : Z;
  ackPolicyFlag : string
}.

(** The flags as the command line leaves them when none is given. *)
Definition defaultContext : Context :=
  {| addressFlag := defaultAddress;
     streamFlag := defaultStreamName;
     subjectFlag := "";
     messageFlag := defaultMessageValue;
     createStreamFlag := false;
     readonlyFlag := true;
     resumeAllFlag := false;
     partitionsFlag := [];
     partitionFlag := 0;
     cursorIDFlag := defaultCursorID;
     offsetFlag := 0;
     ackPolicyFlag := defaultAckPolicy |}.

(** ** Activity stream events *)

(** [liftApi.ActivityStreamOp], a protobuf enum: an [int32] with four
    named values that this program knows. *)
Definition ActivityStreamOp : Type := Z.
Definition ActivityStreamOp_CREATE_STREAM : ActivityStreamOp := 0.
Definition ActivityStreamOp_DELETE_STREAM : ActivityStreamOp := 1.
Definition ActivityStreamOp_PAUSE_STREAM : ActivityStreamOp := 2.
Definition ActivityStreamOp_RESUME_STREAM : ActivityStreamOp := 3.

Record CreateStreamOp : Type := mkCreateStreamOp {
  cs_Stream : string;
  cs_Partitions : list Z
}.

Record DeleteStreamOp : Type := mkDeleteStreamOp {
  ds_Stream : string
}.

Record PauseStreamOp : Type := mkPauseStreamOp {
  ps_Stream : string;
  ps_Partitions : list Z;
  ps_ResumeAll : bool
}.

Record ResumeStreamOp : Type := mkResumeStreamOp {
  rs_Stream : string;
  rs_Partitions : list Z
}.

(** [liftApi.ActivityStreamEvent].  The four operation records are pointer
    fields of the Go struct: [None] is a nil pointer, which a decoded event
    holds for every operation its payload did not carry. *)
Record ActivityStreamEvent : Type := mkActivityStreamEvent {
  Op : ActivityStreamOp;
  createStreamOp : option CreateStreamOp;
  deleteStreamOp : option DeleteStreamOp;
  pauseStreamOp : option PauseStreamOp;
  resumeStreamOp : option ResumeStreamOp
}.

(** What the program uses of the generated protobuf code: the decoder
    [Unmarshal] method of the event and the enum's [String()], which
    [%v] prints. *)
Class ActivityCodec : Type := {
  Unmarshal : string -> result ActivityStreamEvent;
  ActivityStreamOp_String : ActivityStreamOp -> string
}.

(** ** Formatting with [%v] *)

Definition nl : string := String (Ascii.ascii_of_nat 10) EmptyString.

Definition fmt_bool (b : bool) : string := if b then "true" else "false".

Definition fmt_int (n : Z) : string := pretty n.

(** A slice of integers prints as its elements between brackets, separated
    by one space. *)
Definition fmt_ints (l : list Z) : string :=
  "[" +:+ String.concat " " (map fmt_int l) +:+ "]".

(** ** The broker client *)

(** [lift.MessageOption], as far as this program builds one. *)
Inductive MessageOption : Type :=
| AckPolicyLeader
| AckPolicyAll
| AckPolicyNone.

(** A [*lift.Message] that is not nil: its [Value()] and [Offset()]. *)
Record Message : Type := mkMessage {
  Value : string;
  Offset : Z
}.

(** The calls of [lift.Connect] and of the [lift.Client] interface that the
    modelled handlers make, over a broker state [B].  Each takes the state
    of the broker (and of the connection to it) and gives the call's result
    and the next state. *)
Class Client (B : Type) : Type := {
  Connect : list string -> B -> option error * B;
  CreateStream : string -> string -> B -> option error * B;
  Publish : string -> string -> MessageOption -> B -> option error * B;
  Subscribe : string -> B -> option error * B;
  FetchCursor : string -> string -> Z -> B -> result Z * B
}.

(** One entry of the log of calls made to the client library. *)
Inductive Rpc : Type :=
| RpcConnect (addrs : list string)
| RpcCreateStream (subject name : string)
| RpcPublish (stream data : string) (ackPolicy : MessageOption)
| RpcSubscribe (stream : string)
| RpcFetchCursor (cursorID stream : string) (partition : Z).

Definition isPublish (r : Rpc) : bool :=
  match r with
  | RpcPublish _ _ _ => true
  | _ => false
  end.

(** What a handler runs in: the broker, the client calls made so far (oldest
    first) and the chunks printed so far with [fmt.Printf] (oldest first). *)
Record World (B : Type) : Type := mkWorld {
  broker : B;
  rpcs : list Rpc;
  stdout : list string
}.
Arguments mkWorld {B} broker rpcs stdout.
Arguments broker {B} w.
Arguments rpcs {B} w.
Arguments stdout {B} w.

(** ** A state monad over the world *)

Definition M (B A : Type) : Type := World B -> A * World B.

Definition ret {B A : Type} (a : A) : M B A := fun w => (a, w).

Definition bind {B A A' : Type} (m : M B A) (k : A -> M B A') : M B A' :=
  fun w => let (a, w') := m w in k a w'.

Declare Scope cli_scope.
Delimit Scope cli_scope with cli.
Notation "x <- c ;; k" := (bind c (fun x => k))
  (at level 100, c at next level, right associativity) : cli_scope.
Notation "c ;;; k" := (bind c (fun _ => k))
  (at level 100, right associativity) : cli_scope.

(** [fmt.Printf] with its text already formatted. *)
Definition Printf {B : Type} (s : string) : M B unit :=
  fun w => (tt, mkWorld (broker w) (rpcs w) (stdout w ++ [s])).

(** A client call: it is logged, then answered by the broker. *)
Definition call {B A : Type} (r : Rpc) (f : B -> A * B) : M B A :=
  fun w => let (a, b') := f (broker w) in
           (a, mkWorld b' (rpcs w ++ [r]) (stdout w)).

Section Handlers.

Context {B : Type} `{Client B}.

Local Open Scope cli_scope.

Definition connectToEndpoint (address : string) : M B (option error) :=
  err <- call (RpcConnect [address]) (Connect [address]) ;;
  match err with
  | Some err =>
      ret (Some (Wrapf ("connection failed with address " +:+ address) err))
  | None => ret None
  end.

Definition ensureStreamCreated (streamName subjectName : string)
  : M B (option error) :=
  let subjectName :=
    if (String.length subjectName =? 0)%nat then streamName else subjectName in
  err <- call (RpcCreateStream subjectName streamName)
              (CreateStream subjectName streamName) ;;
  match err with
  | Some err =>
      if negb (isErrStreamExists err)
      then ret (Some (Wrapf ("stream creation failed for stream " +:+ streamName) err))
      else ret None
  | None => ret None
  end.

Definition create (c : Context) : M B (option error) :=
  err <- connectToEndpoint (addressFlag c) ;;
  match err with
  | Some err => ret (Some (Wrapf "creation failed" err))
  | None =>
      let streamName := streamFlag c in
      let subjectName := subjectFlag c in
      let subjectName :=
        if (String.length subjectName =? 0)%nat then streamName else subjectName in
      err <- call (RpcCreateStream subjectName streamName)
                  (CreateStream subjectName streamName) ;;
      match err with
      | Some err =>
          ret (Some (Wrapf ("stream creation failed for stream " +:+ streamName) err))
      | None => ret None
      end
  end.

(** *** Subscription sessions *)

(** What [(m *lift.Message, err error)] the client library hands to the
    subscription callback.  Either component may be nil. *)
Definition Delivery : Type := option Message * option error.

(** A Go [func(message *lift.Message)] run on a world: it returns, leaving
    the next world, or panics ([None]). *)
Definition Handler : Type := option Message -> World B -> option (World B).

(** One run of the callback that [subscribeToStream] passes to
    [client.Subscribe]. *)
Inductive Step : Type :=
| Sent (err : option error)
| Handled (w : World B)
| Panic.

Definition callback (handler : Handler) (d : Delivery) (w : World B) : Step :=
  let (m, err) := d in
  match err with
  | Some _ => Sent err
  | None =>
      match handler m w with
      | Some w' => Handled w'
      | None => Panic
      end
  end.

(** How a run of [subscribeToStream] stands after the deliveries observed
    so far: it has returned [err], or it is blocked on [<-errC], or the
    callback has panicked. *)
Inductive Outcome : Type :=
| Returned (err : option error)
| Blocked
| Panicked.

(** The client library runs the callback on one delivery after the other;
    the value the callback sends on the unbuffered [errC] is the one that
    [return <-errC] returns. *)
Fixpoint deliver (handler : Handler) (ds : list Delivery) : M B Outcome :=
  fun w =>
    match ds with
    | [] => (Blocked, w)
    | d :: ds' =>
        match callback handler d w with
        | Sent err => (Returned err, w)
        | Handled w' => deliver handler ds' w'
        | Panic => (Panicked, w)
        end
    end.

Definition subscribeToStream (streamName subjectName : string)
    (handler : Handler) (endPointAddress : string) (createStream : bool)
    (deliveries : list Delivery) : M B Outcome :=
  err <- connectToEndpoint endPointAddress ;;
  match err with
  | Some err => ret (Returned (Some (Wrapf "stream subscription failed" err)))
  | None =>
      err <- (if createStream
              then ensureStreamCreated streamName subjectName
              else ret None) ;;
      match err with
      | Some err => ret (Returned (Some err))
      | None =>
          err <- call (RpcSubscribe streamName) (Subscribe streamName) ;;
          match err with
          | Some err =>
              ret (Returned (Some
                (Wrapf ("stream subscription failed for stream " +:+ streamName) err)))
          | None => deliver handler deliveries
          end
      end
  end.

Definition subscribe_handler : Handler :=
  fun message w =>
    match message with
    | None => None
    | Some message =>
        Some (snd (Printf ("Received message with data: " +:+ Value message
                           +:+ ", offset: " +:+ fmt_int (Offset message) +:+ nl) w))
    end.

Definition subscribe (c : Context) (deliveries : list Delivery) : M B Outcome :=
  let streamName := streamFlag c in
  let subjectName := subjectFlag c in
  subscribeToStream streamName subjectName subscribe_handler
    (addressFlag c) (createStreamFlag c) deliveries.

(** *** The activity stream *)

Context `{ActivityCodec}.

(** The [switch se.Op] of the activity handler, which sets [activityStr].
    Reading a field through a nil operation pointer panics ([None]). *)
Definition activityStr (se : ActivityStreamEvent) : option string :=
  if Op se =? ActivityStreamOp_CREATE_STREAM then
    match createStreamOp se with
    | Some op => Some ("stream: " +:+ cs_Stream op
                       +:+ ", partitions: " +:+ fmt_ints (cs_Partitions op))
    | None => None
    end
  else if Op se =? ActivityStreamOp_DELETE_STREAM then
    match deleteStreamOp se with
    | Some op => Some ("stream: " +:+ ds_Stream op)
    | None => None
    end
  else if Op se =? ActivityStreamOp_PAUSE_STREAM then
    match pauseStreamOp se with
    | Some op => Some ("stream: " +:+ ps_Stream op
                       +:+ ", partitions: " +:+ fmt_ints (ps_Partitions op)
                       +:+ ", resumeAll: " +:+ fmt_bool (ps_ResumeAll op))
    | None => None
    end
  else if Op se =? ActivityStreamOp_RESUME_STREAM then
    match resumeStreamOp se with
    | Some op => Some ("stream: " +:+ rs_Stream op
                       +:+ ", partitions: " +:+ fmt_ints (rs_Partitions op))
    | None => None
    end
  else Some "unknown activity".

Definition invalidActivityLine (err : error) : string :=
  "Received an invalid activity message from the activity stream: "
  +:+ Error err +:+ nl.

Definition activityLine (se : ActivityStreamEvent) (activityStr : string)
    (offset : Z) : string :=
  "Received activity stream message: op: " +:+ ActivityStreamOp_String (Op se)
  +:+ ", " +:+ activityStr +:+ ", offset: " +:+ fmt_int offset +:+ nl.

Definition subscribeActivityStream_handler : Handler :=
  fun message w =>
    match message with
    | None => None
    | Some message =>
        match Unmarshal (Value message) with
        | Err err => Some (snd (Printf (invalidActivityLine err) w))
        | Ok se =>
            match activityStr se with
            | None => None
            | Some s => Some (snd (Printf (activityLine se s (Offset message)) w))
            end
        end
    end.

Definition subscribeActivityStream (c : Context) (deliveries : list Delivery)
  : M B Outcome :=
  subscribeToStream activityStreamName "" subscribeActivityStream_handler
    (addressFlag c) false deliveries.

(** *** Publishing *)

Definition ackPolicyStringToAckPolicy (ackPolicy : string) : result MessageOption :=
  if String.eqb ackPolicy "leader" then Ok AckPolicyLeader
  else if String.eqb ackPolicy "all" then Ok AckPolicyAll
  else if String.eqb ackPolicy "none" then Ok AckPolicyNone
  else Err (Errorf ("invalid ack policy: " +:+ ackPolicy)).

Definition publish (c : Context) : M B (option error) :=
  err <- connectToEndpoint (addressFlag c) ;;
  match err with
  | Some err => ret (Some (Wrapf "publication failed" err))
  | None =>
      let streamName := streamFlag c in
      let subjectName := subjectFlag c in
      err <- (if createStreamFlag c
              then ensureStreamCreated streamName subjectName
              else ret None) ;;
      match err with
      | Some err => ret (Some err)
      | None =>
          let data := messageFlag c in
          match ackPolicyStringToAckPolicy (ackPolicyFlag c) with
          | Err err => ret (Some (Wrapf "publication failed" err))
          | Ok ackPolicyOption =>
              err <- call (RpcPublish streamName data ackPolicyOption)
                          (Publish streamName data ackPolicyOption) ;;
              match err with
              | Some err =>
                  if negb (isErrStreamExists err)
                  then ret (Some (Wrapf "publication failed" err))
                  else ret None
              | None => ret None
              end
          end
      end
  end.

(** *** Partition lists *)

(** The conversion [int32(value)] of a Go [int]: the low 32 bits, read as
    two's complement. *)
Definition int32 (value : Z) : Z :=
  (value + 2 ^ 31) mod 2 ^ 32 - 2 ^ 31.

(** The [for ... range] loop of [intToInt32Slice], [result] being the slice
    appended to. *)
Fixpoint intToInt32Slice_loop (result : list Z) (slice : list Z) : list Z :=
  match slice with
  | [] => result
  | value :: slice' => intToInt32Slice_loop (result ++ [int32 value]) slice'
  end.

Definition intToInt32Slice (slice : list Z) : list Z :=
  intToInt32Slice_loop [] slice.

(** *** Cursors *)

Definition fetchCursor (c : Context) : M B (option error) :=
  err <- connectToEndpoint (addressFlag c) ;;
  match err with
  | Some err => ret (Some (Wrapf "fetching cursor failed" err))
  | None =>
      let streamName := streamFlag c in
      let cursorID := cursorIDFlag c in
      let partition := partitionFlag c in
      r <- call (RpcFetchCursor cursorID streamName (int32 partition))
                (FetchCursor cursorID streamName (int32 partition)) ;;
      match r with
      | Err err =>
          ret (Some (Wrapf ("stream creation failed for stream " +:+ streamName) err))
      | Ok offset =>
          Printf ("offset: " +:+ fmt_int offset +:+ nl) ;;;
          ret None
      end
  end.

End Handlers.

(** ** Two clients to run the handlers on *)

(** An in-memory broker, as a test double of [lift.Client] keeps it: the
    streams by name with their subject, the messages published to each
    stream and the cursors. *)
Record MemBroker : Type := mkMemBroker {
  streams : gmap string string;
  published : list (string * string);
  cursors : gmap (string * string * Z) Z
}.

Definition emptyBroker : MemBroker :=
  {| streams := ∅; published := []; cursors := ∅ |}.

Definition mem_CreateStream (subject name : string) (b : MemBroker)
  : option error * MemBroker :=
  match streams b !! name with
  | Some _ => (Some ErrStreamExists, b)
  | None => (None, mkMemBroker (<[name := subject]> (streams b)) (published b) (cursors b))
  end.

Definition mem_Publish (stream data : string) (ackPolicy : MessageOption)
    (b : MemBroker) : option error * MemBroker :=
  match streams b !! stream with
  | Some _ => (None, mkMemBroker (streams b) (published b ++ [(stream, data)]) (cursors b))
  | None => (Some (ClientError "no known partition"), b)
  end.

Definition mem_Subscribe (stream : string) (b : MemBroker)
  : option error * MemBroker :=
  match streams b !! stream with
  | Some _ => (None, b)
  | None => (Some (ClientError "stream does not exist"), b)
  end.

Definition mem_FetchCursor (cursorID stream : string) (partition : Z)
    (b : MemBroker) : result Z * MemBroker :=
  match cursors b !! (cursorID, stream, partition) with
  | Some offset => (Ok offset, b)
  | None => (Ok (-1), b)
  end.

#[export] Instance MemClient : Client MemBroker := {
  Connect := fun _ b => (None, b);
  CreateStream := mem_CreateStream;
  Publish := mem_Publish;
  Subscribe := mem_Subscribe;
  FetchCursor := mem_FetchCursor
}.

(** A scripted client: it answers every call of a kind with the reply
    written down for that kind. *)
Record Script : Type := mkScript {
  onConnect : option error;
  onCreateStream : option error;
  onPublish : option error;
  onSubscribe : option error;
  onFetchCursor : result Z
}.

#[export] Instance ScriptClient : Client Script := {
  Connect := fun _ s => (onConnect s, s);
  CreateStream := fun _ _ s => (onCreateStream s, s);
  Publish := fun _ _ _ s => (onPublish s, s);
  Subscribe := fun _ s => (onSubscribe s, s);
  FetchCursor := fun _ _ _ s => (onFetchCursor s, s)
}.

Definition start {B : Type} (b : B) : World B := mkWorld b [] [].

(** ** What is asked of a broker *)

(** The streams are the broker's own: once it has answered a create-stream
    request with success or with "stream already exists", it answers the
    same request again with "stream already exists", also over a
    connection opened in between. *)
Class KeepsStreams (B : Type) `{Client B} : Prop := {
  create_again : forall (subject name : string) (b : B),
    fst (CreateStream subject name b) = None \/
    fst (CreateStream subject name b) = Some ErrStreamExists ->
    fst (CreateStream subject name (snd (CreateStream subject name b)))
    = Some ErrStreamExists;
  connect_keeps : forall (addrs : list string) (subject name : string) (b : B),
    fst (CreateStream subject name b) = Some ErrStreamExists ->
    fst (Connect addrs b) = None ->
    fst (CreateStream subject name (snd (Connect addrs b)))
    = Some ErrStreamExists
}.

(** ** Vocabulary of the statements *)

(** The subject that a stream is created under. *)
Definition subjectFor (streamName subjectName : string) : string :=
  if (String.length subjectName =? 0)%nat then streamName else subjectName.

Definition validAckPolicy (token : string) : Prop :=
  token = "leader" \/ token = "all" \/ token = "none".

(** The Publish calls among the client calls made so far. *)
Definition publishCalls {B : Type} (w : World B) : list Rpc :=
  List.filter isPublish (rpcs w).

(** The world in which a handler goes on after [connectToEndpoint]. *)
Definition connected {B : Type} `{Client B} (address : string) (w : World B)
  : World B :=
  snd (connectToEndpoint address w).

Definition int_range (v : Z) : Prop := - 2 ^ 63 <= v < 2 ^ 63.
Definition int32_range (v : Z) : Prop := - 2 ^ 31 <= v < 2 ^ 31.

Definition contains (sub s : string) : Prop :=
  exists pre post : string, s = pre +:+ sub +:+ post.

Definition knownOp (op : ActivityStreamOp) : Prop :=
  op = ActivityStreamOp_CREATE_STREAM \/ op = ActivityStreamOp_DELETE_STREAM \/
  op = ActivityStreamOp_PAUSE_STREAM \/ op = ActivityStreamOp_RESUME_STREAM.

(** The Setup phase of a session: the calls that [subscribeToStream] makes
    before any delivery, and the error it returns when one of them fails. *)
Definition setupSession {B : Type} `{Client B} (streamName subjectName : string)
    (endPointAddress : string) (createStream : bool) : M B (option error) :=
  fun w =>
    match subscribeToStream streamName subjectName (fun _ w => Some w)
            endPointAddress createStream [] w with
    | (Returned err, w') => (err, w')
    | (_, w') => (None, w')
    end.

(** The handler run on one message after the other, as long as it returns. *)
Fixpoint runHandler {B : Type} (handler : Handler (B:=B))
    (ms : list (option Message)) (w : World B) : option (World B) :=
  match ms with
  | [] => Some w
  | m :: ms' =>
      match handler m w with
      | Some w' => runHandler handler ms' w'
      | None => None
      end
  end.

(** A delivery of a message without an error. *)
Definition message (m : option Message) : Delivery := (m, None).

Definition noError (d : Delivery) : Prop := snd d = None.

(** The world after one more chunk was printed. *)
Definition say {B : Type} (w : World B) (s : string) : World B :=
  snd (Printf s w).

(** A decoder to run the activity handler on: it knows one payload. *)
Definition oneEventCodec : ActivityCodec := {|
  Unmarshal := fun payload =>
    if String.eqb payload "delete foo"
    then Ok (mkActivityStreamEvent ActivityStreamOp_DELETE_STREAM None
               (Some (mkDeleteStreamOp "foo")) None None)
    else Err (ClientError "unexpected EOF");
  ActivityStreamOp_String := fun op =>
    if op =? ActivityStreamOp_DELETE_STREAM then "DELETE_STREAM" else fmt_int op
|}.

(** * The administrative commands

    The remaining handlers of [cli/cli.go]: [setReadonly], [pause],
    [delete], [metadata] with [brokerString], [partitionMetadata] with
    [timeToString] and [partitionEventTimestampsToString], and [setCursor];
    then the command and flag tables that [Run] hands to the command line
    library.  The parsing of the arguments is that library's and is not
    part of this development: an invocation is a command with the values of
    the flags. *)

(** ** What the client returns about the cluster *)

(** A [time.Time] as far as the program looks at it: whether it [IsZero()]
    and what [String()] returns, which is also what [%v] prints. *)
Record Time : Type := mkTime {
  IsZero : bool;
  TimeString : string
}.

(** A [lift.BrokerInfo], by what its [ID()] and [Addr()] return.  The
    program holds brokers by pointer, [*lift.BrokerInfo]: below, a pointer
    is an [option BrokerInfo], [None] being nil, which the client hands out
    for a broker it does not know (the leader of a partition that has
    none). *)
Record BrokerInfo : Type := mkBrokerInfo {
  bi_ID : string;
  bi_Addr : string
}.

(** A [lift.PartitionEventTimestamps], by its [FirstTime()] and
    [LatestTime()]. *)
Record PartitionEventTimestamps : Type := mkPartitionEventTimestamps {
  pet_FirstTime : Time;
  pet_LatestTime : Time
}.

(** A partition as [FetchPartitionMetadata] and [Partitions()] give it, by
    its getters. *)
Record PartitionInfo : Type := mkPartitionInfo {
  pi_ID : Z;
  pi_Leader : option BrokerInfo;
  pi_ISR : list (option BrokerInfo);
  pi_Replicas : list (option BrokerInfo);
  pi_HighWatermark : Z;
  pi_NewestOffset : Z;
  pi_Paused : bool;
  pi_Readonly : bool;
  pi_MessagesReceivedTimestamps : PartitionEventTimestamps;
  pi_PauseTimestamps : PartitionEventTimestamps;
  pi_ReadonlyTimestamps : PartitionEventTimestamps
}.

(** A stream of the metadata, by its getters; [si_Partitions] are the
    partitions in the order in which [range sv.Partitions()] visits them. *)
Record StreamInfo : Type := mkStreamInfo {
  si_Name : string;
  si_Subject : string;
  si_Partitions : list PartitionInfo
}.

(** What [FetchMetadata] returns, by its getters. *)
Record Metadata : Type := mkMetadata {
  md_Addrs : list string;
  md_Brokers : list (option BrokerInfo);
  md_LastUpdated : Time;
  md_Streams : list StreamInfo
}.

(** ** The administrative calls of the client *)

(** [lift.ReadonlyOption] and [lift.PauseOption], as far as this program
    builds them. *)
Inductive ReadonlyOption : Type :=
| Readonly (readonly : bool)
| ReadonlyPartitions (partitions : list Z).

Inductive PauseOption : Type :=
| ResumeAll
| PausePartitions (partitions : list Z).

(** The other calls of the [lift.Client] interface that the handlers make,
    over the same broker state. *)
Class AdminClient (B : Type) : Type := {
  SetStreamReadonly : string -> list ReadonlyOption -> B -> option error * B;
  PauseStream : string -> list PauseOption -> B -> option error * B;
  DeleteStream : string -> B -> option error * B;
  FetchMetadata : B -> result Metadata * B;
  FetchPartitionMetadata : string -> Z -> B -> result PartitionInfo * B;
  SetCursor : string -> string -> Z -> Z -> B -> option error * B
}.

(** One entry of the log of these calls. *)
Inductive AdminRpc : Type :=
| RpcSetStreamReadonly (stream : string) (opts : list ReadonlyOption)
| RpcPauseStream (stream : string) (opts : list PauseOption)
| RpcDeleteStream (stream : string)
| RpcFetchMetadata
| RpcFetchPartitionMetadata (stream : string) (partition : Z)
| RpcSetCursor (cursorID stream : string) (partition offset : Z).

(** The world of an administrative handler: the world of the handlers
    above, and the administrative calls made so far (oldest first). *)
Record AdminWorld (B : Type) : Type := mkAdminWorld {
  world : World B;
  adminRpcs : list AdminRpc
}.
Arguments mkAdminWorld {B} world adminRpcs.
Arguments world {B} a.
Arguments adminRpcs {B} a.

Definition MA (B A : Type) : Type := AdminWorld B -> A * AdminWorld B.

Definition retA {B A : Type} (a : A) : MA B A := fun w => (a, w).

Definition bindA {B A A' : Type} (m : MA B A) (k : A -> MA B A') : MA B A' :=
  fun w => let (a, w') := m w in k a w'.

Declare Scope admin_scope.
Delimit Scope admin_scope with admin.
Notation "x <- c ;; k" := (bindA c (fun x => k))
  (at level 100, c at next level, right associativity) : admin_scope.
Notation "c ;;; k" := (bindA c (fun _ => k))
  (at level 100, right associativity) : admin_scope.

(** A step of the handlers above, run by an administrative handler. *)
Definition liftM {B A : Type} (m : M B A) : MA B A :=
  fun w => let (a, w') := m (world w) in (a, mkAdminWorld w' (adminRpcs w)).

(** An administrative call: it is logged, then answered by the broker. *)
Definition adminCall {B A : Type} (r : AdminRpc) (f : B -> A * B) : MA B A :=
  fun w => let (a, b') := f (broker (world w)) in
           (a, mkAdminWorld (mkWorld b' (rpcs (world w)) (stdout (world w)))
                 (adminRpcs w ++ [r])).

(** The world after the chunks [out] were printed. *)
Definition sayAll {B : Type} (w : AdminWorld B) (out : list string) : AdminWorld B :=
  mkAdminWorld (mkWorld (broker (world w)) (rpcs (world w)) (stdout (world w) ++ out))
    (adminRpcs w).

(** ** Printing, with panics *)

(** A run of statements that only print: the chunks it has printed, and its
    result, or [None] when it panicked on the way. *)
Definition Printing (A : Type) : Type := (list string * option A)%type.

Definition retP {A : Type} (a : A) : Printing A := ([], Some a).

Definition bindP {A A' : Type} (m : Printing A) (k : A -> Printing A') : Printing A' :=
  match snd m with
  | Some a => (fst m ++ fst (k a), snd (k a))
  | None => (fst m, None)
  end.

Declare Scope print_scope.
Delimit Scope print_scope with print.
Notation "x <- c ;; k" := (bindP c (fun x => k))
  (at level 100, c at next level, right associativity) : print_scope.
Notation "c ;;; k" := (bindP c (fun _ => k))
  (at level 100, right associativity) : print_scope.

(** [fmt.Printf] with its text already formatted. *)
Definition printf (s : string) : Printing unit := ([s], Some tt).

(** Reading through a pointer, which panics when the pointer is nil. *)
Definition deref {A : Type} (p : option A) : Printing A := ([], p).

(** A [for _, x := range l] loop. *)
Fixpoint forEach {A : Type} (l : list A) (body : A -> Printing unit) : Printing unit :=
  match l with
  | [] => retP tt
  | x :: l' => bindP (body x) (fun _ => forEach l' body)
  end.

(** The end of a handler that prints and returns: in the world, the chunks
    are printed and the handler has returned, or has panicked. *)
Definition finish {B : Type} (p : Printing (option error)) : MA B Outcome :=
  fun w =>
    (match snd p with
     | Some err => Returned err
     | None => Panicked
     end,
     sayAll w (fst p)).

Definition brokerString (b : option BrokerInfo) : Printing string :=
  bindP (deref b) (fun b => retP (bi_ID b +:+ " (" +:+ bi_Addr b +:+ ")")).

Definition timeToString (time : Time) : string :=
  if IsZero time then "never" else TimeString time.

Definition partitionEventTimestampsToString (timestamp : PartitionEventTimestamps)
  : string :=
  "first: " +:+ timeToString (pet_FirstTime timestamp)
  +:+ ", latest: " +:+ timeToString (pet_LatestTime timestamp).

(** The body of the loop of [metadata] over the partitions of a stream,
    the body of its loop over the streams, and its statements that follow
    the fetch. *)
Definition printPartition (pv : PartitionInfo) : Printing unit :=
  (printf ("   " +:+ fmt_int (pi_ID pv) +:+ " " +:+ nl) ;;;
   s <- brokerString (pi_Leader pv) ;;
   printf ("    leader:" +:+ nl +:+ "     " +:+ s +:+ nl) ;;;
   printf ("    ISRs:" +:+ nl) ;;;
   forEach (pi_ISR pv) (fun isr =>
     s <- brokerString isr ;;
     printf ("     " +:+ s +:+ nl)) ;;;
   printf ("    replicas:" +:+ nl) ;;;
   forEach (pi_Replicas pv) (fun isr =>
     s <- brokerString isr ;;
     printf ("     " +:+ s +:+ nl)))%print.

Definition printStream (sv : StreamInfo) : Printing unit :=
  (printf (" " +:+ si_Name sv +:+ " (subject: " +:+ si_Subject sv
           +:+ ")" +:+ nl) ;;;
   printf ("  partitions:" +:+ nl) ;;;
   forEach (si_Partitions sv) printPartition)%print.

Definition printMetadata (metadata : Metadata) : Printing (option error) :=
  (printf ("addresses:" +:+ nl) ;;;
   forEach (md_Addrs metadata) (fun addr =>
     printf (" " +:+ addr +:+ nl)) ;;;
   printf ("brokers:" +:+ nl) ;;;
   forEach (md_Brokers metadata) (fun broker =>
     s <- brokerString broker ;;
     printf (" " +:+ s +:+ nl)) ;;;
   printf ("last updated:" +:+ nl +:+ " "
           +:+ TimeString (md_LastUpdated metadata) +:+ nl) ;;;
   printf ("streams:" +:+ nl) ;;;
   forEach (md_Streams metadata) printStream ;;;
   retP None)%print.

(** The statements of [partitionMetadata] that follow the fetch. *)
Definition printPartitionMetadata (metadata : PartitionInfo) : Printing (option error) :=
  (printf (fmt_int (pi_ID metadata) +:+ nl) ;;;
   s <- brokerString (pi_Leader metadata) ;;
   printf (" leader:" +:+ nl +:+ " " +:+ s +:+ nl) ;;;
   printf (" ISRs:" +:+ nl) ;;;
   forEach (pi_ISR metadata) (fun isr =>
     s <- brokerString isr ;;
     printf ("  " +:+ s +:+ nl)) ;;;
   printf (" replicas:" +:+ nl) ;;;
   forEach (pi_Replicas metadata) (fun isr =>
     s <- brokerString isr ;;
     printf ("  " +:+ s +:+ nl)) ;;;
   printf (" high watermark:" +:+ nl +:+ " "
           +:+ fmt_int (pi_HighWatermark metadata) +:+ nl) ;;;
   printf (" newest offset:" +:+ nl +:+ " "
           +:+ fmt_int (pi_NewestOffset metadata) +:+ nl) ;;;
   printf (" paused:" +:+ nl +:+ " " +:+ fmt_bool (pi_Paused metadata) +:+ nl) ;;;
   printf (" read-only:" +:+ nl +:+ " " +:+ fmt_bool (pi_Readonly metadata) +:+ nl) ;;;
   printf (" message received timestamps:" +:+ nl +:+ " "
           +:+ partitionEventTimestampsToString
                 (pi_MessagesReceivedTimestamps metadata) +:+ nl) ;;;
   printf (" pause timestamps:" +:+ nl +:+ " "
           +:+ partitionEventTimestampsToString (pi_PauseTimestamps metadata)
           +:+ nl) ;;;
   printf (" read-only timestamps:" +:+ nl +:+ " "
           +:+ partitionEventTimestampsToString (pi_ReadonlyTimestamps metadata)
           +:+ nl) ;;;
   retP None)%print.

Section AdminHandlers.

Context {B : Type} `{Client B} `{AdminClient B}.

Local Open Scope admin_scope.

Definition setReadonly (c : Context) : MA B (option error) :=
  err <- liftM (connectToEndpoint (addressFlag c)) ;;
  match err with
  | Some err => retA (Some (Wrapf "set readonly failed" err))
  | None =>
      let streamName := streamFlag c in
      let subjectName := subjectFlag c in
      err <- (if createStreamFlag c
              then liftM (ensureStreamCreated streamName subjectName)
              else retA None) ;;
      match err with
      | Some err => retA (Some err)
      | None =>
          let readonly := readonlyFlag c in
          let partitions := partitionsFlag c in
          let opts := [Readonly readonly;
                       ReadonlyPartitions (intToInt32Slice partitions)] in
          err <- adminCall (RpcSetStreamReadonly streamName opts)
                           (SetStreamReadonly streamName opts) ;;
          match err with
          | Some err => retA (Some (Wrapf "set readonly failed" err))
          | None => retA None
          end
      end
  end.

Definition pause (c : Context) : MA B (option error) :=
  err <- liftM (connectToEndpoint (addressFlag c)) ;;
  match err with
  | Some err => retA (Some (Wrapf "pause failed" err))
  | None =>
      let streamName := streamFlag c in
      let subjectName := subjectFlag c in
      err <- (if createStreamFlag c
              then liftM (ensureStreamCreated streamName subjectName)
              else retA None) ;;
      match err with
      | Some err => retA (Some err)
      | None =>
          let opts : list PauseOption := [] in
          let opts := if resumeAllFlag c then opts ++ [ResumeAll] else opts in
          let partitions := partitionsFlag c in
          let opts := opts ++ [PausePartitions (intToInt32Slice partitions)] in
          err <- adminCall (RpcPauseStream streamName opts)
                           (PauseStream streamName opts) ;;
          match err with
          | Some err => retA (Some (Wrapf "pause failed" err))
          | None => retA None
          end
      end
  end.

Definition delete (c : Context) : MA B (option error) :=
  err <- liftM (connectToEndpoint (addressFlag c)) ;;
  match err with
  | Some err => retA (Some (Wrapf "delete failed" err))
  | None =>
      let streamName := streamFlag c in
      let subjectName := subjectFlag c in
      err <- (if createStreamFlag c
              then liftM (ensureStreamCreated streamName subjectName)
              else retA None) ;;
      match err with
      | Some err => retA (Some err)
      | None =>
          err <- adminCall (RpcDeleteStream streamName) (DeleteStream streamName) ;;
          match err with
          | Some err => retA (Some (Wrapf "delete failed" err))
          | None => retA None
          end
      end
  end.

Definition metadata (c : Context) : MA B Outcome :=
  err <- liftM (connectToEndpoint (addressFlag c)) ;;
  match err with
  | Some err => retA (Returned (Some (Wrapf "metadata fetching failed" err)))
  | None =>
      r <- adminCall RpcFetchMetadata FetchMetadata ;;
      match r with
      | Err err => retA (Returned (Some (Wrapf "metadata fetching failed" err)))
      | Ok metadata => finish (printMetadata metadata)
      end
  end.

Definition partitionMetadata (c : Context) : MA B Outcome :=
  err <- liftM (connectToEndpoint (addressFlag c)) ;;
  match err with
  | Some err =>
      retA (Returned (Some (Wrapf "partition metadata fetching failed" err)))
  | None =>
      let streamName := streamFlag c in
      let subjectName := subjectFlag c in
      err <- (if createStreamFlag c
              then liftM (ensureStreamCreated streamName subjectName)
              else retA None) ;;
      match err with
      | Some err => retA (Returned (Some err))
      | None =>
          let partition := partitionFlag c in
          r <- adminCall (RpcFetchPartitionMetadata streamName (int32 partition))
                         (FetchPartitionMetadata streamName (int32 partition)) ;;
          match r with
          | Err err => retA (Returned (Some (Wrapf "metadata fetching failed" err)))
          | Ok metadata => finish (printPartitionMetadata metadata)
          end
      end
  end.

Definition setCursor (c : Context) : MA B (option error) :=
  err <- liftM (connectToEndpoint (addressFlag c)) ;;
  match err with
  | Some err => retA (Some (Wrapf "setting cursor failed" err))
  | None =>
      let streamName := streamFlag c in
      let subjectName := subjectFlag c in
      err <- (if createStreamFlag c
              then liftM (ensureStreamCreated streamName subjectName)
              else retA None) ;;
      match err with
      | Some err => retA (Some err)
      | None =>
          let cursorID := cursorIDFlag c in
          let partition := partitionFlag c in
          let offset := offsetFlag c in
          err <- adminCall (RpcSetCursor cursorID streamName (int32 partition) offset)
                           (SetCursor cursorID streamName (int32 partition) offset) ;;
          match err with
          | Some err => retA (Some (Wrapf "setting cursor failed" err))
          | None => retA None
          end
      end
  end.

End AdminHandlers.

(** ** The command table *)

(** The commands of [Run], named as the variables that hold them. *)
Inductive Command : Type :=
| createCommand
| subscribeCommand
| subscribeActivityStreamCommand
| publishCommand
| setReadonlyCommand
| pauseCommand
| deleteCommand
| metadataCommand
| partitionMetadataCommand
| setCursorCommand
| fetchCursorCommand.

(** The [Commands] of the application, in their order. *)
Definition commands : list Command :=
  [createCommand; subscribeCommand; subscribeActivityStreamCommand;
   publishCommand; setReadonlyCommand; pauseCommand; deleteCommand;
   metadataCommand; partitionMetadataCommand; setCursorCommand;
   fetchCursorCommand].

Definition commandName (cmd : Command) : string :=
  match cmd with
  | createCommand => "create"
  | subscribeCommand => "subscribe"
  | subscribeActivityStreamCommand => "subscribe-activity-stream"
  | publishCommand => "publish"
  | setReadonlyCommand => "set-readonly"
  | pauseCommand => "pause"
  | deleteCommand => "delete"
  | metadataCommand => "metadata"
  | partitionMetadataCommand => "partition-metadata"
  | setCursorCommand => "set-cursor"
  | fetchCursorCommand => "fetch-cursor"
  end.

Definition commandAliases (cmd : Command) : list string :=
  match cmd with
  | createCommand => ["c"]
  | subscribeCommand => ["s"]
  | subscribeActivityStreamCommand => ["sas"]
  | publishCommand => ["p"]
  | setReadonlyCommand => ["r"]
  | pauseCommand => ["u"]
  | deleteCommand => ["d"]
  | metadataCommand => ["m"]
  | partitionMetadataCommand => ["t"]
  | setCursorCommand => ["e"]
  | fetchCursorCommand => ["f"]
  end.

Section Actions.

Context {B : Type} `{Client B} `{AdminClient B} `{ActivityCodec}.

(** A handler of the first part of this file run as an action: it returns. *)
Definition returning (m : M B (option error)) : MA B Outcome :=
  bindA (liftM m) (fun err => retA (Returned err)).

Definition returningA (m : MA B (option error)) : MA B Outcome :=
  bindA m (fun err => retA (Returned err)).

(** The [Action] of each command, run on the flags of the invocation and,
    for the two subscriptions, on the deliveries observed. *)
Definition action (cmd : Command) (c : Context) (deliveries : list Delivery)
  : MA B Outcome :=
  match cmd with
  | createCommand => returning (create c)
  | subscribeCommand => liftM (subscribe c deliveries)
  | subscribeActivityStreamCommand => liftM (subscribeActivityStream c deliveries)
  | publishCommand => returning (publish c)
  | setReadonlyCommand => returningA (setReadonly c)
  | pauseCommand => returningA (pause c)
  | deleteCommand => returningA (delete c)
  | metadataCommand => metadata c
  | partitionMetadataCommand => partitionMetadata c
  | setCursorCommand => returningA (setCursor c)
  | fetchCursorCommand => returning (fetchCursor c)
  end.

End Actions.

(** ** Clients for the administrative commands *)

Definition blankTimestamps : PartitionEventTimestamps :=
  mkPartitionEventTimestamps (mkTime true "") (mkTime true "").

Definition mem_exists (stream : string) (b : MemBroker) : option error * MemBroker :=
  match streams b !! stream with
  | Some _ => (None, b)
  | None => (Some (ClientError "stream does not exist"), b)
  end.

Definition mem_DeleteStream (stream : string) (b : MemBroker)
  : option error * MemBroker :=
  match streams b !! stream with
  | Some _ => (None, mkMemBroker (base.delete stream (streams b)) (published b) (cursors b))
  | None => (Some (ClientError "stream does not exist"), b)
  end.

Definition mem_FetchMetadata (b : MemBroker) : result Metadata * MemBroker :=
  (Ok (mkMetadata [] [] (mkTime false "now")
         ((fun ns => mkStreamInfo (fst ns) (snd ns) []) <$> map_to_list (streams b))),
   b).

Definition mem_FetchPartitionMetadata (stream : string) (partition : Z)
    (b : MemBroker) : result PartitionInfo * MemBroker :=
  match streams b !! stream with
  | Some _ =>
      if partition =? 0
      then (Ok (mkPartitionInfo 0 (Some (mkBrokerInfo "a" "localhost:9292")) [] [] 0 (-1)
                  false false blankTimestamps blankTimestamps blankTimestamps), b)
      else (Err (ClientError "partition does not exist"), b)
  | None => (Err (ClientError "stream does not exist"), b)
  end.

Definition mem_SetCursor (cursorID stream : string) (partition offset : Z)
    (b : MemBroker) : option error * MemBroker :=
  (None, mkMemBroker (streams b) (published b)
           (<[(cursorID, stream, partition) := offset]> (cursors b))).

#[export] Instance MemAdminClient : AdminClient MemBroker := {
  SetStreamReadonly := fun stream _ => mem_exists stream;
  PauseStream := fun stream _ => mem_exists stream;
  DeleteStream := mem_DeleteStream;
  FetchMetadata := mem_FetchMetadata;
  FetchPartitionMetadata := mem_FetchPartitionMetadata;
  SetCursor := mem_SetCursor
}.

(** A scripted client for all the calls. *)
Record AdminScript : Type := mkAdminScript {
  script : Script;
  onSetStreamReadonly : option error;
  onPauseStream : option error;
  onDeleteStream : option error;
  onFetchMetadata : result Metadata;
  onFetchPartitionMetadata : result PartitionInfo;
  onSetCursor : option error
}.

#[export] Instance AdminScript_Client : Client AdminScript := {
  Connect := fun _ s => (onConnect (script s), s);
  CreateStream := fun _ _ s => (onCreateStream (script s), s);
  Publish := fun _ _ _ s => (onPublish (script s), s);
  Subscribe := fun _ s => (onSubscribe (script s), s);
  FetchCursor := fun _ _ _ s => (onFetchCursor (script s), s)
}.

#[export] Instance AdminScript_AdminClient : AdminClient AdminScript := {
  SetStreamReadonly := fun _ _ s => (onSetStreamReadonly s, s);
  PauseStream := fun _ _ s => (onPauseStream s, s);
  DeleteStream := fun _ s => (onDeleteStream s, s);
  FetchMetadata := fun s => (onFetchMetadata s, s);
  FetchPartitionMetadata := fun _ _ s => (onFetchPartitionMetadata s, s);
  SetCursor := fun _ _ _ _ s => (onSetCursor s, s)
}.

Definition startA {B : Type} (b : B) : AdminWorld B := mkAdminWorld (start b) [].

(** The broker keeps its cursors: the offset that a set-cursor request
    which succeeded has stored is the one that a fetch-cursor request for
    the same cursor, stream and partition returns, also over a connection
    opened in between. *)
Class KeepsCursors (B : Type) `{Client B} `{AdminClient B} : Prop := {
  fetch_after_set :
    forall (cursorID stream : string) (partition offset : Z) (addrs : list string)
           (b : B),
      fst (SetCursor cursorID stream partition offset b) = None ->
      fst (Connect addrs (snd (SetCursor cursorID stream partition offset b))) = None ->
      fst (FetchCursor cursorID stream partition
             (snd (Connect addrs (snd (SetCursor cursorID stream partition offset b)))))
      = Ok offset
}.


(** An event that an empty payload decodes to: the first discriminant, and
    no operation record. *)
Definition emptyEvent : ActivityStreamEvent :=
  mkActivityStreamEvent ActivityStreamOp_CREATE_STREAM None None None None.

(** A decoder that takes the empty payload as the protobuf decoder does, to
    the event with no field set, and knows no other payload. *)
Definition emptyPayloadCodec : ActivityCodec := {|
  Unmarshal := fun payload =>
    if String.eqb payload ""
    then Ok emptyEvent
    else Err (ClientError "unexpected EOF");
  ActivityStreamOp_String := fun op =>
    if op =? ActivityStreamOp_CREATE_STREAM then "CREATE_STREAM" else fmt_int op
|}.

(** ** Vocabulary of the statements on the commands *)

(** The prefix under which each command returns a failed connection. *)
Definition connectionFailurePrefix (cmd : Command) : string :=
  match cmd with
  | createCommand => "creation failed"
  | subscribeCommand => "stream subscription failed"
  | subscribeActivityStreamCommand => "stream subscription failed"
  | publishCommand => "publication failed"
  | setReadonlyCommand => "set readonly failed"
  | pauseCommand => "pause failed"
  | deleteCommand => "delete failed"
  | metadataCommand => "metadata fetching failed"
  | partitionMetadataCommand => "partition metadata fetching failed"
  | setCursorCommand => "setting cursor failed"
  | fetchCursorCommand => "fetching cursor failed"
  end.

(** The commands that take the [--create-stream] flag. *)
Definition takesCreateStream (cmd : Command) : bool :=
  match cmd with
  | subscribeCommand | publishCommand | setReadonlyCommand | pauseCommand
  | deleteCommand | partitionMetadataCommand | setCursorCommand => true
  | _ => false
  end.

Definition isCreateStream (r : Rpc) : bool :=
  match r with
  | RpcCreateStream _ _ => true
  | _ => false
  end.

(** The CreateStream calls among the client calls made so far. *)
Definition createCalls {B : Type} (w : World B) : list Rpc :=
  List.filter isCreateStream (rpcs w).

(** The world after the client calls [new] were logged and the broker was
    left as [b]. *)
Definition afterCalls {B : Type} (w : AdminWorld B) (b : B) (new : list Rpc)
  : AdminWorld B :=
  mkAdminWorld (mkWorld b (rpcs (world w) ++ new) (stdout (world w))) (adminRpcs w).

(** The broker as the connection and the stream creation asked for leave
    it, and whether both went through. *)
Definition brokerAfterSetup {B : Type} `{Client B} (c : Context) (b : B) : B :=
  let b1 := snd (Connect [addressFlag c] b) in
  if createStreamFlag c
  then snd (CreateStream (subjectFor (streamFlag c) (subjectFlag c)) (streamFlag c) b1)
  else b1.

Definition setupOk {B : Type} `{Client B} (c : Context) (b : B) : Prop :=
  fst (Connect [addressFlag c] b) = None
  /\ (createStreamFlag c = true ->
      let r := fst (CreateStream (subjectFor (streamFlag c) (subjectFlag c))
                      (streamFlag c) (snd (Connect [addressFlag c] b))) in
      r = None \/ r = Some ErrStreamExists).

(** The client calls of the setup. *)
Definition setupCalls (c : Context) : list Rpc :=
  RpcConnect [addressFlag c]
  :: (if createStreamFlag c
      then [RpcCreateStream (subjectFor (streamFlag c) (subjectFlag c)) (streamFlag c)]
      else []).

(** The broker pointers that [metadata] reads for a partition and for the
    whole metadata, and the ones that [partitionMetadata] reads. *)
Definition partitionBrokers (pv : PartitionInfo) : list (option BrokerInfo) :=
  pi_Leader pv :: pi_ISR pv ++ pi_Replicas pv.

Definition metadataBrokers (metadata : Metadata) : list (option BrokerInfo) :=
  md_Brokers metadata
  ++ flat_map (fun sv => flat_map partitionBrokers (si_Partitions sv))
       (md_Streams metadata).

(** The text of a broker behind a pointer that is not nil. *)
Definition brokerText (b : option BrokerInfo) : string :=
  match b with
  | Some b => bi_ID b +:+ " (" +:+ bi_Addr b +:+ ")"
  | None => ""
  end.

(** What [metadata] prints for a partition, a stream and the whole
    metadata, and what [partitionMetadata] prints for a partition, chunk by
    chunk, when no broker pointer is nil. *)
Definition partitionLines (pv : PartitionInfo) : list string :=
  ["   " +:+ fmt_int (pi_ID pv) +:+ " " +:+ nl;
   "    leader:" +:+ nl +:+ "     " +:+ brokerText (pi_Leader pv) +:+ nl;
   "    ISRs:" +:+ nl]
  ++ map (fun isr => "     " +:+ brokerText isr +:+ nl) (pi_ISR pv)
  ++ ["    replicas:" +:+ nl]
  ++ map (fun isr => "     " +:+ brokerText isr +:+ nl) (pi_Replicas pv).

Definition streamLines (sv : StreamInfo) : list string :=
  [" " +:+ si_Name sv +:+ " (subject: " +:+ si_Subject sv +:+ ")" +:+ nl;
   "  partitions:" +:+ nl]
  ++ flat_map partitionLines (si_Partitions sv).

Definition metadataLines (metadata : Metadata) : list string :=
  ["addresses:" +:+ nl]
  ++ map (fun addr => " " +:+ addr +:+ nl) (md_Addrs metadata)
  ++ ["brokers:" +:+ nl]
  ++ map (fun broker => " " +:+ brokerText broker +:+ nl) (md_Brokers metadata)
  ++ ["last updated:" +:+ nl +:+ " " +:+ TimeString (md_LastUpdated metadata) +:+ nl;
      "streams:" +:+ nl]
  ++ flat_map streamLines (md_Streams metadata).

Definition partitionMetadataLines (metadata : PartitionInfo) : list string :=
  [fmt_int (pi_ID metadata) +:+ nl;
   " leader:" +:+ nl +:+ " " +:+ brokerText (pi_Leader metadata) +:+ nl;
   " ISRs:" +:+ nl]
  ++ map (fun isr => "  " +:+ brokerText isr +:+ nl) (pi_ISR metadata)
  ++ [" replicas:" +:+ nl]
  ++ map (fun isr => "  " +:+ brokerText isr +:+ nl) (pi_Replicas metadata)
  ++ [" high watermark:" +:+ nl +:+ " " +:+ fmt_int (pi_HighWatermark metadata) +:+ nl;
      " newest offset:" +:+ nl +:+ " " +:+ fmt_int (pi_NewestOffset metadata) +:+ nl;
      " paused:" +:+ nl +:+ " " +:+ fmt_bool (pi_Paused metadata) +:+ nl;
      " read-only:" +:+ nl +:+ " " +:+ fmt_bool (pi_Readonly metadata) +:+ nl;
      " message received timestamps:" +:+ nl +:+ " "
        +:+ partitionEventTimestampsToString (pi_MessagesReceivedTimestamps metadata)
        +:+ nl;
      " pause timestamps:" +:+ nl +:+ " "
        +:+ partitionEventTimestampsToString (pi_PauseTimestamps metadata) +:+ nl;
      " read-only timestamps:" +:+ nl +:+ " "
        +:+ partitionEventTimestampsToString (pi_ReadonlyTimestamps metadata) +:+ nl].

(** The world after the administrative call [r] was logged and the broker
    was left as [b]. *)
Definition afterAdminCall {B : Type} (w : AdminWorld B) (b : B) (r : AdminRpc)
  : AdminWorld B :=
  mkAdminWorld (mkWorld b (rpcs (world w)) (stdout (world w))) (adminRpcs w ++ [r]).

(** How a handler that takes [--create-stream] runs: a failed connection is
    returned under [prefix], a failed stream creation as it is, and
    otherwise the rest [k] of the handler runs in the world that the setup
    leaves. *)
Definition setupThen {B A : Type} `{Client B} (c : Context) (prefix : string)
    (fail : error -> A) (k : MA B A) : MA B A :=
  fun w =>
    let b1 := snd (Connect [addressFlag c] (broker (world w))) in
    let W := afterCalls w (brokerAfterSetup c (broker (world w))) (setupCalls c) in
    match fst (Connect [addressFlag c] (broker (world w))) with
    | Some e =>
        (fail (Wrapf prefix
                 (Wrapf ("connection failed with address " +:+ addressFlag c) e)),
         afterCalls w b1 [RpcConnect [addressFlag c]])
    | None =>
        match (if createStreamFlag c
               then fst (CreateStream (subjectFor (streamFlag c) (subjectFlag c))
                           (streamFlag c) b1)
               else None) with
        | Some e =>
            if isErrStreamExists e then k W
            else (fail (Wrapf ("stream creation failed for stream " +:+ streamFlag c) e),
                  W)
        | None => k W
        end
    end.

(** The flags [c] with other values for [--partition] and [--partitions]. *)
Definition withPartitions (c : Context) (partition : Z) (partitions : list Z)
  : Context :=
  mkContext (addressFlag c) (streamFlag c) (subjectFlag c) (messageFlag c)
    (createStreamFlag c) (readonlyFlag c) (resumeAllFlag c) partitions partition
    (cursorIDFlag c) (offsetFlag c) (ackPolicyFlag c).

(** The line that [subscribe] prints for a message. *)
Definition messageLine (m : Message) : string :=
  "Received message with data: " +:+ Value m +:+ ", offset: "
  +:+ fmt_int (Offset m) +:+ nl.

(** The world after the chunks [out] were printed. *)
Definition sayAllW {B : Type} (w : World B) (out : list string) : World B :=
  mkWorld (broker w) (rpcs w) (stdout w ++ out).

(** ** The flag table *)

(** The flags, named after the variables that hold them. *)
Inductive Flag : Type :=
| Flag_address
| Flag_stream
| Flag_subject
| Flag_message
| Flag_createStream
| Flag_readonly
| Flag_resumeAll
| Flag_partitions
| Flag_partition
| Flag_cursorID
| Flag_offset
| Flag_ackPolicy.

Definition flagName (f : Flag) : string :=
  match f with
  | Flag_address => "address"
  | Flag_stream => "stream"
  | Flag_subject => "subject"
  | Flag_message => "message"
  | Flag_createStream => "create-stream"
  | Flag_readonly => "readonly"
  | Flag_resumeAll => "resume-all"
  | Flag_partitions => "partitions"
  | Flag_partition => "partition"
  | Flag_cursorID => "cursor-id"
  | Flag_offset => "offset"
  | Flag_ackPolicy => "ack-policy"
  end.

Definition flagAliases (f : Flag) : list string :=
  match f with
  | Flag_address => ["a"]
  | Flag_stream => ["s"]
  | Flag_subject => ["u"]
  | Flag_message => ["m"]
  | Flag_createStream => ["c"]
  | Flag_readonly => ["r"]
  | Flag_resumeAll => ["r"]
  | Flag_partitions => ["p"]
  | Flag_partition => ["p"]
  | Flag_cursorID => ["i"]
  | Flag_offset => ["o"]
  | Flag_ackPolicy => ["k"]
  end.

(** The [Flags] of each command, and those of the application. *)
Definition commandFlags (cmd : Command) : list Flag :=
  match cmd with
  | createCommand => [Flag_stream; Flag_subject]
  | subscribeCommand => [Flag_createStream; Flag_stream; Flag_subject]
  | subscribeActivityStreamCommand => []
  | publishCommand =>
      [Flag_message; Flag_createStream; Flag_stream; Flag_subject; Flag_ackPolicy]
  | setReadonlyCommand =>
      [Flag_createStream; Flag_stream; Flag_subject; Flag_readonly; Flag_partitions]
  | pauseCommand =>
      [Flag_createStream; Flag_stream; Flag_subject; Flag_resumeAll; Flag_partitions]
  | deleteCommand => [Flag_createStream; Flag_stream; Flag_subject]
  | metadataCommand => []
  | partitionMetadataCommand =>
      [Flag_createStream; Flag_stream; Flag_subject; Flag_partition]
  | setCursorCommand =>
      [Flag_createStream; Flag_stream; Flag_subject; Flag_cursorID; Flag_partition;
       Flag_offset]
  | fetchCursorCommand => [Flag_stream; Flag_cursorID; Flag_partition]
  end.

Definition appFlags : list Flag := [Flag_address].

(** The names under which a command, or a flag, can be given. *)
Definition commandNames (cmd : Command) : list string :=
  commandName cmd :: commandAliases cmd.

Definition flagNames (f : Flag) : list string :=
  flagName f :: flagAliases f.

(** Two invocations give the flag [f] the same value. *)
Definition sameFlag (f : Flag) (c c' : Context) : Prop :=
  match f with
  | Flag_address => addressFlag c = addressFlag c'
  | Flag_stream => streamFlag c = streamFlag c'
  | Flag_subject => subjectFlag c = subjectFlag c'
  | Flag_message => messageFlag c = messageFlag c'
  | Flag_createStream => createStreamFlag c = createStreamFlag c'
  | Flag_readonly => readonlyFlag c = readonlyFlag c'
  | Flag_resumeAll => resumeAllFlag c = resumeAllFlag c'
  | Flag_partitions => partitionsFlag c = partitionsFlag c'
  | Flag_partition => partitionFlag c = partitionFlag c'
  | Flag_cursorID => cursorIDFlag c = cursorIDFlag c'
  | Flag_offset => offsetFlag c = offsetFlag c'
  | Flag_ackPolicy => ackPolicyFlag c = ackPolicyFlag c'
  end.

(** ** Inputs of the examples *)

Definition offline : AdminScript :=
  mkAdminScript (mkScript (Some (ClientError "no route")) None None None (Ok 0))
    None None None (Err (ClientError "unavailable")) (Err (ClientError "unavailable"))
    None.

Definition smallCluster : Metadata :=
  mkMetadata ["a:1"; "b:2"] [Some (mkBrokerInfo "x" "a:1")] (mkTime false "now")
    [mkStreamInfo "foo" "bar"
       [mkPartitionInfo 0 (Some (mkBrokerInfo "x" "a:1"))
          [Some (mkBrokerInfo "x" "a:1")] []
          0 0 false false blankTimestamps blankTimestamps blankTimestamps]].

(** A client that answers every call with success, except the stream
    creation and the partition metadata, which fail. *)
Definition online : AdminScript :=
  mkAdminScript (mkScript None (Some (ClientError "no quorum")) None None (Ok 7))
    None None None (Ok smallCluster) (Err (ClientError "unavailable")) None.

(** A partition without a known leader, a cluster that has one, and a
    client that answers every call with success and the metadata calls with
    these. *)
Definition leaderlessPartition : PartitionInfo :=
  mkPartitionInfo 0 None [] [Some (mkBrokerInfo "x" "a:1")]
    0 0 false false blankTimestamps blankTimestamps blankTimestamps.

Definition leaderlessCluster : Metadata :=
  mkMetadata ["a:1"] [Some (mkBrokerInfo "x" "a:1")] (mkTime false "now")
    [mkStreamInfo "foo" "bar" [leaderlessPartition]].

Definition degraded : AdminScript :=
  mkAdminScript (mkScript None None None None (Ok 7))
    None None None (Ok leaderlessCluster) (Ok leaderlessPartition) None.

Definition withCreateStream (c : Context) : Context :=
  mkContext (addressFlag c) (streamFlag c) (subjectFlag c) (messageFlag c)
    true (readonlyFlag c) (resumeAllFlag c) (partitionsFlag c) (partitionFlag c)
    (cursorIDFlag c) (offsetFlag c) (ackPolicyFlag c).

(** * Properties *)

#[export] Instance MemBroker_KeepsStreams : KeepsStreams MemBroker.
Proof.
  split.
  - intros subject name b _. simpl. unfold mem_CreateStream.
    destruct (streams b !! name) eqn:E; simpl.
    + rewrite E. reflexivity.
    + rewrite lookup_insert_eq. reflexivity.
  - intros addrs subject name b Hc _. exact Hc.
Qed.

(** ** Running the handlers *)

Lemma length_zero_empty (s : string) :
  (String.length s =? 0)%nat = true <-> s = "".
Proof.
  destruct s as [|a s]; simpl; split; intros E; try reflexivity; discriminate E.
Qed.

Lemma subjectFor_empty (streamName : string) :
  subjectFor streamName "" = streamName.
Proof. reflexivity. Qed.

Lemma subjectFor_given (streamName subjectName : string) :
  subjectName <> "" -> subjectFor streamName subjectName = subjectName.
Proof.
  intros Hne. unfold subjectFor.
  destruct (String.length subjectName =? 0)%nat eqn:E; [|reflexivity].
  apply length_zero_empty in E. contradiction.
Qed.

Section Runs.

Context {B : Type} `{Client B}.

(** What [ensureStreamCreated] leaves behind, by the broker's answer. *)
Lemma ensureStreamCreated_run (streamName subjectName : string) (w : World B) :
  let subject := subjectFor streamName subjectName in
  let r := CreateStream subject streamName (broker w) in
  ensureStreamCreated streamName subjectName w =
  (match fst r with
   | Some e =>
       if isErrStreamExists e then None
       else Some (Wrapf ("stream creation failed for stream " +:+ streamName) e)
   | None => None
   end,
   mkWorld (snd r) (rpcs w ++ [RpcCreateStream subject streamName]) (stdout w)).
Proof.
  unfold ensureStreamCreated, subjectFor, bind, call, ret; simpl.
  destruct (CreateStream _ streamName (broker w)) as [[e|] b']; simpl;
    [destruct (isErrStreamExists e)|]; reflexivity.
Qed.

Lemma isErrStreamExists_true (e : error) :
  isErrStreamExists e = true <-> e = ErrStreamExists.
Proof. destruct e; simpl; split; intros E; try reflexivity; discriminate E. Qed.

Lemma isErrStreamExists_false (e : error) :
  isErrStreamExists e = false <-> e <> ErrStreamExists.
Proof.
  destruct e; simpl; split; intros E; try reflexivity; try discriminate;
    try (exfalso; apply E; reflexivity).
Qed.

(** [ensureStreamCreated] returns nil exactly when the broker answered nil
    or "stream already exists". *)
Lemma ensureStreamCreated_nil (streamName subjectName : string) (w : World B) :
  let r := CreateStream (subjectFor streamName subjectName) streamName (broker w) in
  fst (ensureStreamCreated streamName subjectName w) = None <->
  fst r = None \/ fst r = Some ErrStreamExists.
Proof.
  simpl. rewrite ensureStreamCreated_run. simpl.
  destruct (fst (CreateStream _ streamName (broker w))) as [e|].
  - destruct (isErrStreamExists e) eqn:E.
    + apply isErrStreamExists_true in E. subst e. split; auto.
    + apply isErrStreamExists_false in E. split; [discriminate|].
      intros [E'|E']; [discriminate|]. inversion E'. contradiction.
  - split; auto.
Qed.

(** What [connectToEndpoint] leaves behind. *)
Lemma connectToEndpoint_run (address : string) (w : World B) :
  let r := Connect [address] (broker w) in
  connectToEndpoint address w =
  (match fst r with
   | Some e => Some (Wrapf ("connection failed with address " +:+ address) e)
   | None => None
   end,
   mkWorld (snd r) (rpcs w ++ [RpcConnect [address]]) (stdout w)).
Proof.
  unfold connectToEndpoint, bind, call, ret; simpl.
  destruct (Connect [address] (broker w)) as [[e|] b']; reflexivity.
Qed.

(** What [create] leaves behind once the connection is open. *)
Lemma create_run (c : Context) (w : World B) :
  fst (Connect [addressFlag c] (broker w)) = None ->
  let b1 := snd (Connect [addressFlag c] (broker w)) in
  let subject := subjectFor (streamFlag c) (subjectFlag c) in
  let r := CreateStream subject (streamFlag c) b1 in
  create c w =
  (match fst r with
   | Some e => Some (Wrapf ("stream creation failed for stream " +:+ streamFlag c) e)
   | None => None
   end,
   mkWorld (snd r)
     (rpcs w ++ [RpcConnect [addressFlag c]; RpcCreateStream subject (streamFlag c)])
     (stdout w)).
Proof.
  intros Hc. unfold create, bind. rewrite connectToEndpoint_run. simpl.
  rewrite Hc. unfold call, ret, subjectFor. simpl.
  destruct (CreateStream _ (streamFlag c) _) as [[e|] b']; simpl;
    rewrite <- app_assoc; reflexivity.
Qed.


End Runs.

(** ** Stream creation *)

(** C1.  Whenever the broker answers the create-stream call with "stream
    already exists", [ensureStreamCreated] returns nil; any other error of
    that call is returned wrapped as a stream creation failure that names
    the stream; and so, against a broker that keeps its streams, a second
    call with the same stream and subject names that follows a call which
    returned nil returns nil as well. *)
Theorem ensureStreamCreated_idempotent (B : Type) (HC : Client B) :
  (forall (streamName subjectName : string) (w : World B),
     fst (CreateStream (subjectFor streamName subjectName) streamName (broker w))
       = Some ErrStreamExists ->
     fst (ensureStreamCreated streamName subjectName w) = None)
  /\ (forall (streamName subjectName : string) (w : World B) (e : error),
     fst (CreateStream (subjectFor streamName subjectName) streamName (broker w))
       = Some e ->
     e <> ErrStreamExists ->
     fst (ensureStreamCreated streamName subjectName w)
       = Some (Wrapf ("stream creation failed for stream " +:+ streamName) e))
  /\ (KeepsStreams B ->
      forall (streamName subjectName : string) (w : World B),
        fst (ensureStreamCreated streamName subjectName w) = None ->
        fst (ensureStreamCreated streamName subjectName
               (snd (ensureStreamCreated streamName subjectName w))) = None).
Proof.
  split; [|split].
  - intros streamName subjectName w Hex.
    apply ensureStreamCreated_nil. right. exact Hex.
  - intros streamName subjectName w e He Hne.
    rewrite ensureStreamCreated_run. simpl. rewrite He.
    apply isErrStreamExists_false in Hne. rewrite Hne. reflexivity.
  - intros HK streamName subjectName w Hfirst.
    apply ensureStreamCreated_nil in Hfirst.
    apply ensureStreamCreated_nil. right.
    rewrite ensureStreamCreated_run. simpl.
    apply create_again. exact Hfirst.
Qed.

Lemma ensureStreamCreated_idempotent_witness :
  fst (ensureStreamCreated (B:=MemBroker) "foo" "" (start emptyBroker)) = None
  /\ fst (ensureStreamCreated (B:=MemBroker) "foo" ""
            (snd (ensureStreamCreated "foo" "" (start emptyBroker)))) = None
  /\ fst (ensureStreamCreated (B:=Script) "foo" "bar"
            (start (mkScript None (Some (ClientError "deadline exceeded")) None None (Ok 0))))
     = Some (Wrapf "stream creation failed for stream foo" (ClientError "deadline exceeded")).
Proof.
  pose proof (ensureStreamCreated_idempotent MemBroker MemClient) as [Hex [_ Htwice]].
  pose proof (ensureStreamCreated_idempotent Script ScriptClient) as [_ [Hother _]].
  split; [|split].
  - vm_compute. reflexivity.
  - apply (Htwice MemBroker_KeepsStreams "foo" "" (start emptyBroker)).
    vm_compute. reflexivity.
  - apply (Hother "foo" "bar" _ (ClientError "deadline exceeded")).
    + reflexivity.
    + discriminate.
Defined.

(** C2, as the specification has it, fails: the second [create] for the
    same stream against a broker that holds it returns the broker's "stream
    already exists", wrapped. *)
Lemma create_twice_counterexample :
  let c := mkContext defaultAddress "foo" "" defaultMessageValue false true false
             [] 0 defaultCursorID 0 defaultAckPolicy in
  let w1 := snd (create (B:=MemBroker) c (start emptyBroker)) in
  fst (create (B:=MemBroker) c (start emptyBroker)) = None
  /\ fst (create (B:=MemBroker) c w1)
     = Some (Wrapf "stream creation failed for stream foo" ErrStreamExists)
  /\ fst (create (B:=MemBroker) c w1) <> None.
Proof.
  vm_compute. split; [reflexivity|]. split; [reflexivity|discriminate].
Qed.

(** C2, amended.  Once connected, [create] returns nil when the broker's
    create-stream call does, and returns every error of that call, "stream
    already exists" among them, wrapped as a stream creation failure that
    names the stream.  Against a broker that keeps its streams, a [create]
    that returned nil is followed, for the same arguments and over a new
    connection, by a [create] that returns "stream already exists"
    wrapped. *)
Theorem create_reports_existing_stream (B : Type) (HC : Client B)
    (c : Context) (w : World B) :
  fst (Connect [addressFlag c] (broker w)) = None ->
  let b1 := snd (Connect [addressFlag c] (broker w)) in
  let r := CreateStream (subjectFor (streamFlag c) (subjectFlag c)) (streamFlag c) b1 in
  (fst r = None -> fst (create c w) = None)
  /\ (forall e : error,
        fst r = Some e ->
        fst (create c w)
        = Some (Wrapf ("stream creation failed for stream " +:+ streamFlag c) e))
  /\ (KeepsStreams B ->
      fst (create c w) = None ->
      fst (Connect [addressFlag c] (broker (snd (create c w)))) = None ->
      fst (create c (snd (create c w)))
      = Some (Wrapf ("stream creation failed for stream " +:+ streamFlag c)
                ErrStreamExists)).
Proof.
  intros Hc b1 r. split; [|split].
  - intros Hr. rewrite (create_run c w Hc). simpl. fold b1. fold r.
    rewrite Hr. reflexivity.
  - intros e Hr. rewrite (create_run c w Hc). simpl. fold b1. fold r.
    rewrite Hr. reflexivity.
  - intros HK Hfirst Hc2.
    rewrite (create_run c w Hc) in *. simpl in *. fold b1 in Hfirst, Hc2 |- *.
    fold r in Hfirst, Hc2 |- *.
    destruct (fst r) as [e|] eqn:Hr; [discriminate Hfirst|].
    rewrite create_run by exact Hc2. simpl.
    rewrite connect_keeps.
    + reflexivity.
    + apply create_again. left. exact Hr.
    + exact Hc2.
Qed.

Lemma create_reports_existing_stream_witness :
  let c := mkContext defaultAddress "foo" "" defaultMessageValue false true false
             [] 0 defaultCursorID 0 defaultAckPolicy in
  fst (create (B:=MemBroker) c (snd (create (B:=MemBroker) c (start emptyBroker))))
  = Some (Wrapf "stream creation failed for stream foo" ErrStreamExists).
Proof.
  intros c.
  apply (proj2 (proj2 (create_reports_existing_stream MemBroker MemClient c
                         (start emptyBroker) eq_refl))
           MemBroker_KeepsStreams).
  - vm_compute. reflexivity.
  - reflexivity.
Defined.

(** C9.  [ensureStreamCreated], and [create] once connected, hand the
    broker's create-stream call the stream name as the subject when the
    subject given is empty, and the subject given when it is not: what each
    returns and the broker it leaves are those of that one call, made for
    that subject and the stream name, and the call is the only create-stream
    call logged. *)
Theorem subject_defaults_to_stream (B : Type) (HC : Client B)
    (streamName subjectName : string) (w : World B) :
  let subject := if decide (subjectName = "") then streamName else subjectName in
  (let r := CreateStream subject streamName (broker w) in
   ensureStreamCreated streamName subjectName w
   = (match fst r with
      | Some e =>
          if isErrStreamExists e then None
          else Some (Wrapf ("stream creation failed for stream " +:+ streamName) e)
      | None => None
      end,
      mkWorld (snd r) (rpcs w ++ [RpcCreateStream subject streamName]) (stdout w)))
  /\ (forall c : Context,
        streamFlag c = streamName ->
        subjectFlag c = subjectName ->
        fst (Connect [addressFlag c] (broker w)) = None ->
        let r := CreateStream subject streamName
                   (snd (Connect [addressFlag c] (broker w))) in
        create c w
        = (match fst r with
           | Some e =>
               Some (Wrapf ("stream creation failed for stream " +:+ streamName) e)
           | None => None
           end,
           mkWorld (snd r)
             (rpcs w ++ [RpcConnect [addressFlag c];
                         RpcCreateStream subject streamName])
             (stdout w))).
Proof.
  assert (Hs : subjectFor streamName subjectName
               = if decide (subjectName = "") then streamName else subjectName).
  { destruct (decide (subjectName = "")) as [->|Hne].
    - apply subjectFor_empty.
    - apply subjectFor_given. exact Hne. }
  cbv zeta. split.
  - rewrite ensureStreamCreated_run. cbv zeta. rewrite Hs. reflexivity.
  - intros c <- <- Hc. rewrite (create_run c w Hc). cbv zeta.
    rewrite Hs. reflexivity.
Qed.

Lemma subject_defaults_to_stream_witness :
  let c := mkContext defaultAddress "foo" "" defaultMessageValue false true false
             [] 0 defaultCursorID 0 defaultAckPolicy in
  streams (broker (snd (create (B:=MemBroker) c (start emptyBroker)))) !! "foo"
  = Some "foo"
  /\ streams (broker (snd (ensureStreamCreated (B:=MemBroker) "foo" "bar"
                             (start emptyBroker)))) !! "foo"
     = Some "bar"
  /\ rpcs (snd (ensureStreamCreated (B:=MemBroker) "foo" "" (start emptyBroker)))
     = [RpcCreateStream "foo" "foo"].
Proof.
  intros c. split; [|split].
  - assert (Hc : fst (Connect [addressFlag c] (broker (start emptyBroker))) = None)
      by reflexivity.
    rewrite (proj2 (subject_defaults_to_stream MemBroker MemClient "foo" ""
                      (start emptyBroker)) c eq_refl eq_refl Hc).
    vm_compute. reflexivity.
  - rewrite (proj1 (subject_defaults_to_stream MemBroker MemClient "foo" "bar"
                      (start emptyBroker))).
    vm_compute. reflexivity.
  - rewrite (proj1 (subject_defaults_to_stream MemBroker MemClient "foo" ""
                      (start emptyBroker))).
    vm_compute. reflexivity.
Defined.

(** ** Publishing *)

Lemma ackPolicy_valid (token : string) :
  validAckPolicy token ->
  exists opt : MessageOption, ackPolicyStringToAckPolicy token = Ok opt.
Proof.
  intros [E | [E | E]]; subst token; eexists; reflexivity.
Qed.

Lemma ackPolicy_invalid (token : string) :
  ~ validAckPolicy token ->
  ackPolicyStringToAckPolicy token = Err (Errorf ("invalid ack policy: " +:+ token)).
Proof.
  intros Hn. unfold ackPolicyStringToAckPolicy.
  destruct (String.eqb_spec token "leader") as [E|_];
    [exfalso; apply Hn; left; exact E|].
  destruct (String.eqb_spec token "all") as [E|_];
    [exfalso; apply Hn; right; left; exact E|].
  destruct (String.eqb_spec token "none") as [E|_];
    [exfalso; apply Hn; right; right; exact E|].
  reflexivity.
Qed.

Lemma validAckPolicy_dec (token : string) :
  validAckPolicy token \/ ~ validAckPolicy token.
Proof.
  unfold validAckPolicy.
  destruct (String.eqb_spec token "leader"); [tauto|].
  destruct (String.eqb_spec token "all"); [tauto|].
  destruct (String.eqb_spec token "none"); tauto.
Qed.

Lemma publishCalls_other (l : list Rpc) (r : Rpc) :
  isPublish r = false ->
  List.filter isPublish (l ++ [r]) = List.filter isPublish l.
Proof.
  intros Hr. rewrite List.filter_app. simpl. rewrite Hr. apply app_nil_r.
Qed.

(** C3.  The resolver returns an acknowledgement policy exactly for the
    tokens "leader", "all" and "none"; for every other token it fails with
    "invalid ack policy: <token>", and [publish] then makes no Publish call
    and returns an error, which is that error wrapped as a publication
    failure whenever the handler gets as far as the resolver (the connection
    opens, and the stream creation asked for, if any, does not fail). *)
Theorem invalid_ack_policy_never_published (B : Type) (HC : Client B) :
  (forall token : string,
     (exists opt : MessageOption, ackPolicyStringToAckPolicy token = Ok opt)
     <-> validAckPolicy token)
  /\ (forall token : string,
        ~ validAckPolicy token ->
        ackPolicyStringToAckPolicy token
        = Err (Errorf ("invalid ack policy: " +:+ token)))
  /\ (forall (c : Context) (w : World B),
        ~ validAckPolicy (ackPolicyFlag c) ->
        publishCalls (snd (publish c w)) = publishCalls w
        /\ fst (publish c w) <> None
        /\ (fst (Connect [addressFlag c] (broker w)) = None ->
            (createStreamFlag c = true ->
             fst (ensureStreamCreated (streamFlag c) (subjectFlag c)
                    (connected (addressFlag c) w)) = None) ->
            fst (publish c w)
            = Some (Wrapf "publication failed"
                      (Errorf ("invalid ack policy: " +:+ ackPolicyFlag c))))).
Proof.
  split; [|split].
  - intros token. split.
    + intros [opt Hopt].
      destruct (validAckPolicy_dec token) as [Hv|Hn]; [exact Hv|].
      rewrite (ackPolicy_invalid token Hn) in Hopt. discriminate Hopt.
    + apply ackPolicy_valid.
  - apply ackPolicy_invalid.
  - intros c w Hn. unfold publishCalls, connected, publish, bind.
    rewrite connectToEndpoint_run. simpl.
    destruct (fst (Connect [addressFlag c] (broker w))) as [e0|] eqn:Ec; simpl.
    { split; [apply publishCalls_other; reflexivity|].
      split; [discriminate|]. intros Hc. discriminate Hc. }
    rewrite (ackPolicy_invalid _ Hn).
    destruct (createStreamFlag c) eqn:Ef.
    + rewrite ensureStreamCreated_run. simpl.
      match goal with
      | |- context [fst (CreateStream ?s ?n ?b)] =>
          destruct (fst (CreateStream s n b)) as [e1|] eqn:E1
      end; [destruct (isErrStreamExists e1) eqn:Ex|]; simpl;
        (split;
         [rewrite publishCalls_other by reflexivity;
          apply publishCalls_other; reflexivity|]);
        (split; [discriminate|]); intros _ Hens;
        try reflexivity.
      specialize (Hens eq_refl). discriminate Hens.
    + unfold ret. simpl.
      split; [apply publishCalls_other; reflexivity|].
      split; [discriminate|]. intros _ _. reflexivity.
Qed.

Lemma invalid_ack_policy_never_published_witness :
  let c := mkContext defaultAddress "foo" "" "bar" true true false
             [] 0 defaultCursorID 0 "Leader" in
  publish (B:=MemBroker) c (start emptyBroker)
  = (Some (Wrapf "publication failed" (Errorf "invalid ack policy: Leader")),
     snd (ensureStreamCreated "foo" "" (connected defaultAddress (start emptyBroker)))).
Proof.
  intros c.
  assert (Hn : ~ validAckPolicy (ackPolicyFlag c)).
  { intros [E|[E|E]]; discriminate E. }
  pose proof (proj2 (proj2 (invalid_ack_policy_never_published MemBroker MemClient))
                c (start emptyBroker) Hn) as [_ [_ Hret]].
  specialize (Hret eq_refl).
  assert (Hens : createStreamFlag c = true ->
                 fst (ensureStreamCreated (B:=MemBroker) (streamFlag c) (subjectFlag c)
                        (connected (addressFlag c) (start emptyBroker))) = None).
  { intros _. vm_compute. reflexivity. }
  specialize (Hret Hens).
  destruct (publish c (start emptyBroker)) as [r w'] eqn:E.
  simpl in Hret. subst r. f_equal.
  vm_compute in E. inversion E. vm_compute. reflexivity.
Defined.

(** What [publish] returns once it has made its Publish call: the call's
    error wrapped as a publication failure, unless that error is
    [ErrStreamExists], which is dropped. *)
Lemma publish_after_Publish (B : Type) (HC : Client B) (c : Context) (w : World B)
    (opt : MessageOption) :
  fst (Connect [addressFlag c] (broker w)) = None ->
  createStreamFlag c = false ->
  ackPolicyStringToAckPolicy (ackPolicyFlag c) = Ok opt ->
  let r := Publish (streamFlag c) (messageFlag c) opt
             (snd (Connect [addressFlag c] (broker w))) in
  fst (publish c w) =
  match fst r with
  | Some e => if isErrStreamExists e then None
              else Some (Wrapf "publication failed" e)
  | None => None
  end.
Proof.
  intros Hc Hf Hopt. unfold publish, bind.
  rewrite connectToEndpoint_run. simpl. rewrite Hc, Hf, Hopt.
  unfold ret, call. simpl.
  destruct (Publish _ _ _ _) as [[e|] b']; simpl;
    [destruct (isErrStreamExists e)|]; reflexivity.
Qed.


(** ** Cursors *)

(** What [fetchCursor] returns when its FetchCursor call fails. *)
Lemma fetchCursor_failed (B : Type) (HC : Client B) (c : Context) (w : World B)
    (e : error) :
  fst (Connect [addressFlag c] (broker w)) = None ->
  fst (FetchCursor (cursorIDFlag c) (streamFlag c) (int32 (partitionFlag c))
         (snd (Connect [addressFlag c] (broker w)))) = Err e ->
  fst (fetchCursor c w)
  = Some (Wrapf ("stream creation failed for stream " +:+ streamFlag c) e).
Proof.
  intros Hc Hf. unfold fetchCursor, bind.
  rewrite connectToEndpoint_run. simpl. rewrite Hc.
  unfold call, ret. simpl.
  destruct (FetchCursor _ _ _ _) as [r b']. simpl in Hf. subst r. reflexivity.
Qed.

(** C8, on the code: a FetchCursor call that fails makes [fetchCursor]
    return the error under the prefix of a stream creation failure, where a
    failed connection is returned under the prefix "fetching cursor
    failed". *)
Theorem fetchCursor_failure_named_stream_creation :
  let failing := mkScript None None None None (Err (ClientError "deadline exceeded")) in
  let offline := mkScript (Some (ClientError "no route")) None None None (Ok 0) in
  fst (fetchCursor defaultContext (start failing))
  = Some (Wrapf "stream creation failed for stream some-stream"
            (ClientError "deadline exceeded"))
  /\ (Error <$> fst (fetchCursor defaultContext (start failing)))
     = Some "stream creation failed for stream some-stream: deadline exceeded"
  /\ (Error <$> fst (fetchCursor defaultContext (start offline)))
     = Some "fetching cursor failed: connection failed with address 127.0.0.1:9292: no route".
Proof.
  split; [|split]; reflexivity.
Qed.

(** ** Partition lists *)

Lemma intToInt32Slice_loop_map (slice result : list Z) :
  intToInt32Slice_loop result slice = result ++ map int32 slice.
Proof.
  revert result. induction slice as [|value slice IH]; intros result; simpl.
  - symmetry. apply app_nil_r.
  - rewrite IH, <- app_assoc. reflexivity.
Qed.

Lemma intToInt32Slice_map (slice : list Z) :
  intToInt32Slice slice = map int32 slice.
Proof. unfold intToInt32Slice. apply intToInt32Slice_loop_map. Qed.

Lemma int32_in_range (v : Z) : int32_range (int32 v).
Proof.
  unfold int32_range, int32.
  pose proof (Z.mod_pos_bound (v + 2 ^ 31) (2 ^ 32) ltac:(lia)). lia.
Qed.

Lemma int32_id (v : Z) : int32_range v -> int32 v = v.
Proof.
  unfold int32_range, int32. intros Hv.
  rewrite Z.mod_small by lia. lia.
Qed.

Lemma int32_id_only (v : Z) : int32 v = v -> int32_range v.
Proof. intros E. rewrite <- E. apply int32_in_range. Qed.

(** C6, as the specification has it, fails: a Go [int] beyond 32 bits comes
    out with another value. *)
Lemma intToInt32Slice_counterexample :
  Forall int_range [2147483648]
  /\ intToInt32Slice [2147483648] = [-2147483648]
  /\ intToInt32Slice [2147483648] !! 0%nat <> [2147483648] !! 0%nat.
Proof.
  split; [|split].
  - repeat constructor; unfold int_range; lia.
  - reflexivity.
  - vm_compute. discriminate.
Qed.

(** C6, amended.  [intToInt32Slice] returns, for every list, a list of the
    same length, the empty list for the empty list, whose element at each
    index is the element of the input at that index reduced to 32 bits in
    two's complement; the element has the value of the input element
    exactly when that lies in the range of an [int32], so a list of such
    values comes out as it went in. *)
Theorem intToInt32Slice_narrows (slice : list Z) :
  length (intToInt32Slice slice) = length slice
  /\ intToInt32Slice [] = []
  /\ (forall i : nat, intToInt32Slice slice !! i = int32 <$> slice !! i)
  /\ (forall (i : nat) (v : Z),
        slice !! i = Some v ->
        (intToInt32Slice slice !! i = Some v <-> int32_range v))
  /\ (Forall int32_range slice -> intToInt32Slice slice = slice).
Proof.
  rewrite intToInt32Slice_map.
  split; [apply length_map|]. split; [reflexivity|].
  split; [intros i; apply list_lookup_fmap|].
  split.
  - intros i v Hv.
    change (map int32 slice) with (int32 <$> slice).
    rewrite list_lookup_fmap, Hv. simpl. split.
    + intros E. inversion E as [E']. rewrite E'. apply int32_id_only. exact E'.
    + intros Hr. rewrite int32_id by exact Hr. reflexivity.
  - intros Hall. induction Hall as [|v l Hv Hl IH]; simpl.
    + reflexivity.
    + rewrite int32_id by exact Hv. f_equal. exact IH.
Qed.

Lemma intToInt32Slice_narrows_witness :
  intToInt32Slice [0; 1; 7] = [0; 1; 7].
Proof.
  apply (proj2 (proj2 (proj2 (proj2 (intToInt32Slice_narrows [0; 1; 7]))))).
  repeat constructor; unfold int32_range; lia.
Defined.

(** ** Activity events *)

Lemma string_app_assoc (s1 s2 s3 : string) :
  (s1 +:+ s2) +:+ s3 = s1 +:+ s2 +:+ s3.
Proof.
  induction s1 as [|a s1 IH]; [reflexivity|].
  change (String a ((s1 +:+ s2) +:+ s3) = String a (s1 +:+ s2 +:+ s3)).
  rewrite IH. reflexivity.
Qed.

Lemma string_app_nil_r (s : string) : s +:+ "" = s.
Proof.
  induction s as [|a s IH]; [reflexivity|].
  change (String a (s +:+ "") = String a s). rewrite IH. reflexivity.
Qed.

Lemma contains_here (pre sub post : string) : contains sub (pre +:+ sub +:+ post).
Proof. exists pre, post. reflexivity. Qed.

Lemma contains_end (pre sub : string) : contains sub (pre +:+ sub).
Proof. exists pre, "". rewrite string_app_nil_r. reflexivity. Qed.

Lemma contains_later (pre sub s : string) :
  contains sub s -> contains sub (pre +:+ s).
Proof.
  intros [p [q E]]. exists (pre +:+ p), q.
  rewrite E. symmetry. apply string_app_assoc.
Qed.

Create HintDb contains.
#[local] Hint Resolve contains_here contains_end contains_later : contains.

(** C5, as the specification has it, fails: the event that an empty payload
    decodes to has a known discriminant and no operation record; the
    [switch] reads the stream name through the nil pointer, so that no
    summary is rendered and the session panics. *)
Lemma activityStr_nil_record_counterexample :
  knownOp (Op emptyEvent)
  /\ activityStr emptyEvent = None
  /\ ~ (forall se : ActivityStreamEvent,
          knownOp (Op se) -> exists s : string, activityStr se = Some s)
  /\ fst (subscribeActivityStream (B:=Script) (H0:=emptyPayloadCodec)
            defaultContext [(Some (mkMessage "" 0), None)]
            (start (mkScript None None None None (Ok 0))))
     = Panicked.
Proof.
  split; [left; reflexivity|]. split; [reflexivity|]. split.
  - intros Hall. destruct (Hall emptyEvent) as [s Hs]; [left; reflexivity|].
    discriminate Hs.
  - vm_compute. reflexivity.
Qed.

(** C5, amended.  For an event whose discriminant is one of the four known
    ones and which carries the operation record of that discriminant, the
    summary contains the record's stream name, for all but DELETE_STREAM the
    partition list as [%v] prints it, and for PAUSE_STREAM the resume-all
    flag; for an event with any other discriminant the summary is "unknown
    activity".  The [switch] panics, and renders nothing, exactly on the
    events with a known discriminant whose record of that discriminant is
    nil. *)
Theorem activityStr_renders (se : ActivityStreamEvent) :
  (Op se = ActivityStreamOp_CREATE_STREAM ->
   forall op : CreateStreamOp, createStreamOp se = Some op ->
   exists s : string, activityStr se = Some s
     /\ contains (cs_Stream op) s /\ contains (fmt_ints (cs_Partitions op)) s)
  /\ (Op se = ActivityStreamOp_DELETE_STREAM ->
   forall op : DeleteStreamOp, deleteStreamOp se = Some op ->
   exists s : string, activityStr se = Some s /\ contains (ds_Stream op) s)
  /\ (Op se = ActivityStreamOp_PAUSE_STREAM ->
   forall op : PauseStreamOp, pauseStreamOp se = Some op ->
   exists s : string, activityStr se = Some s
     /\ contains (ps_Stream op) s /\ contains (fmt_ints (ps_Partitions op)) s
     /\ contains (fmt_bool (ps_ResumeAll op)) s)
  /\ (Op se = ActivityStreamOp_RESUME_STREAM ->
   forall op : ResumeStreamOp, resumeStreamOp se = Some op ->
   exists s : string, activityStr se = Some s
     /\ contains (rs_Stream op) s /\ contains (fmt_ints (rs_Partitions op)) s)
  /\ (~ knownOp (Op se) -> activityStr se = Some "unknown activity")
  /\ (activityStr se = None <->
      (Op se = ActivityStreamOp_CREATE_STREAM /\ createStreamOp se = None)
      \/ (Op se = ActivityStreamOp_DELETE_STREAM /\ deleteStreamOp se = None)
      \/ (Op se = ActivityStreamOp_PAUSE_STREAM /\ pauseStreamOp se = None)
      \/ (Op se = ActivityStreamOp_RESUME_STREAM /\ resumeStreamOp se = None)).
Proof.
  unfold activityStr. repeat apply conj.
  - intros -> op ->. eexists. split; [reflexivity|]. split; auto 6 with contains.
  - intros -> op ->. eexists. split; [reflexivity|]. auto with contains.
  - intros -> op ->. eexists. split; [reflexivity|].
    repeat split; auto 8 with contains.
  - intros -> op ->. eexists. split; [reflexivity|]. split; auto 6 with contains.
  - intros Hn. unfold knownOp in Hn.
    destruct (Z.eqb_spec (Op se) ActivityStreamOp_CREATE_STREAM); [tauto|].
    destruct (Z.eqb_spec (Op se) ActivityStreamOp_DELETE_STREAM); [tauto|].
    destruct (Z.eqb_spec (Op se) ActivityStreamOp_PAUSE_STREAM); [tauto|].
    destruct (Z.eqb_spec (Op se) ActivityStreamOp_RESUME_STREAM); [tauto|].
    reflexivity.
  - unfold ActivityStreamOp_CREATE_STREAM, ActivityStreamOp_DELETE_STREAM,
      ActivityStreamOp_PAUSE_STREAM, ActivityStreamOp_RESUME_STREAM.
    destruct (Z.eqb_spec (Op se) 0) as [E0|E0];
      [destruct (createStreamOp se); intuition (try discriminate; lia)|].
    destruct (Z.eqb_spec (Op se) 1) as [E1|E1];
      [destruct (deleteStreamOp se); intuition (try discriminate; lia)|].
    destruct (Z.eqb_spec (Op se) 2) as [E2|E2];
      [destruct (pauseStreamOp se); intuition (try discriminate; lia)|].
    destruct (Z.eqb_spec (Op se) 3) as [E3|E3];
      [destruct (resumeStreamOp se); intuition (try discriminate; lia)|].
    intuition (try discriminate; lia).
  - unfold ActivityStreamOp_CREATE_STREAM, ActivityStreamOp_DELETE_STREAM,
      ActivityStreamOp_PAUSE_STREAM, ActivityStreamOp_RESUME_STREAM.
    destruct (Z.eqb_spec (Op se) 0) as [E0|E0];
      [destruct (createStreamOp se) eqn:Er;
       intuition (try discriminate; try congruence; lia)|].
    destruct (Z.eqb_spec (Op se) 1) as [E1|E1];
      [destruct (deleteStreamOp se) eqn:Er;
       intuition (try discriminate; try congruence; lia)|].
    destruct (Z.eqb_spec (Op se) 2) as [E2|E2];
      [destruct (pauseStreamOp se) eqn:Er;
       intuition (try discriminate; try congruence; lia)|].
    destruct (Z.eqb_spec (Op se) 3) as [E3|E3];
      [destruct (resumeStreamOp se) eqn:Er;
       intuition (try discriminate; try congruence; lia)|].
    intuition (try discriminate; lia).
Qed.

Lemma activityStr_renders_witness :
  let pause := mkActivityStreamEvent ActivityStreamOp_PAUSE_STREAM None None
                 (Some (mkPauseStreamOp "foo" [0; 2] true)) None in
  let other := mkActivityStreamEvent 4 None None None None in
  (exists s : string, activityStr pause = Some s
     /\ contains "foo" s /\ contains "[0 2]" s /\ contains "true" s)
  /\ activityStr other = Some "unknown activity".
Proof.
  intros pause other. split.
  - apply (proj1 (proj2 (proj2 (activityStr_renders pause))) eq_refl
             (mkPauseStreamOp "foo" [0; 2] true) eq_refl).
  - apply (proj1 (proj2 (proj2 (proj2 (proj2 (activityStr_renders other)))))).
    unfold knownOp. simpl. intros [E|[E|[E|E]]]; discriminate E.
Defined.

(** ** Subscription sessions *)

Section Sessions.

Context {B : Type} `{Client B}.

Lemma deliver_app (handler : Handler) (ds1 ds2 : list Delivery) (w : World B) :
  deliver handler (ds1 ++ ds2) w =
  match deliver handler ds1 w with
  | (Blocked, w1) => deliver handler ds2 w1
  | r => r
  end.
Proof.
  revert w. induction ds1 as [|d ds1 IH]; intros w; simpl; [reflexivity|].
  destruct (callback handler d w) as [err|w'|]; [reflexivity|apply IH|reflexivity].
Qed.

Lemma deliver_messages (handler : Handler) (ms : list (option Message)) (w : World B) :
  match runHandler handler ms w with
  | Some w' => deliver handler (map message ms) w = (Blocked, w')
  | None => fst (deliver handler (map message ms) w) = Panicked
  end.
Proof.
  revert w. induction ms as [|m ms IH]; intros w; simpl; [reflexivity|].
  destruct (handler m w) as [w'|]; [apply IH|reflexivity].
Qed.

Lemma deliver_noError (handler : Handler) (ds : list Delivery) (w : World B) :
  Forall noError ds ->
  forall err : option error, fst (deliver handler ds w) <> Returned err.
Proof.
  intros Hall. revert w. induction Hall as [|[m e] ds Hd Hds IH]; intros w err; simpl.
  - discriminate.
  - unfold noError in Hd. simpl in Hd. subst e.
    destruct (handler m w) as [w'|]; [apply IH|discriminate].
Qed.

Lemma deliver_not_nil (handler : Handler) (ds : list Delivery) (w : World B) :
  fst (deliver handler ds w) <> Returned None.
Proof.
  revert w. induction ds as [|[m e] ds IH]; intros w; simpl; [discriminate|].
  destruct e as [e|]; simpl; [discriminate|].
  destruct (handler m w) as [w'|]; [apply IH|discriminate].
Qed.

(** A run of [subscribeToStream] is its Setup phase and then, if that went
    through, the deliveries. *)
Lemma subscribeToStream_phases (streamName subjectName : string)
    (handler : Handler) (endPointAddress : string) (createStream : bool)
    (ds : list Delivery) (w : World B) :
  let s := setupSession streamName subjectName endPointAddress createStream w in
  subscribeToStream streamName subjectName handler endPointAddress createStream ds w =
  match fst s with
  | Some e => (Returned (Some e), snd s)
  | None => deliver handler ds (snd s)
  end.
Proof.
  unfold setupSession, subscribeToStream, bind.
  rewrite connectToEndpoint_run. simpl.
  destruct (fst (Connect [endPointAddress] (broker w))) as [e0|]; simpl;
    [reflexivity|].
  destruct createStream.
  - rewrite ensureStreamCreated_run. simpl.
    match goal with
    | |- context [fst (CreateStream ?s ?n ?b)] =>
        destruct (fst (CreateStream s n b)) as [e1|]
    end; [destruct (isErrStreamExists e1)|]; simpl; try reflexivity;
      unfold call; simpl;
      destruct (Subscribe streamName _) as [[e2|] b2]; reflexivity.
  - unfold ret, call. simpl.
    destruct (Subscribe streamName _) as [[e2|] b2]; reflexivity.
Qed.

(** No run of [subscribeToStream] has returned nil. *)
Lemma subscribeToStream_not_nil (streamName subjectName : string)
    (handler : Handler) (endPointAddress : string) (createStream : bool)
    (ds : list Delivery) (w : World B) :
  fst (subscribeToStream streamName subjectName handler endPointAddress
         createStream ds w) <> Returned None.
Proof.
  rewrite subscribeToStream_phases. simpl.
  destruct (fst (setupSession _ _ _ _ w)); [discriminate|apply deliver_not_nil].
Qed.

End Sessions.

(** The Setup phase goes through exactly when the connection opens, the
    stream creation asked for (if any) does not fail and the Subscribe call
    succeeds. *)
Lemma setupSession_ok (B : Type) (HC : Client B) (streamName subjectName : string)
    (endPointAddress : string) (createStream : bool) (w : World B) :
  let w1 := connected endPointAddress w in
  let w2 := if createStream
            then snd (ensureStreamCreated streamName subjectName w1) else w1 in
  fst (setupSession streamName subjectName endPointAddress createStream w) = None
  <-> fst (Connect [endPointAddress] (broker w)) = None
      /\ (createStream = true ->
          fst (ensureStreamCreated streamName subjectName w1) = None)
      /\ fst (Subscribe streamName (broker w2)) = None.
Proof.
  unfold setupSession, subscribeToStream, connected, bind.
  rewrite connectToEndpoint_run. simpl.
  destruct (fst (Connect [endPointAddress] (broker w))) as [e0|]; simpl.
  { split; [discriminate|]. intros [E _]. discriminate E. }
  destruct createStream.
  - destruct (ensureStreamCreated streamName subjectName _) as [[e1|] w2] eqn:E1;
      simpl.
    + split; [discriminate|]. intros [_ [E _]]. specialize (E eq_refl).
      discriminate E.
    + unfold call. destruct (Subscribe streamName (broker w2)) as [[e2|] b2]; simpl.
      * split; [discriminate|]. intros [_ [_ E]]. discriminate E.
      * split; auto.
  - unfold ret, call. simpl.
    destruct (Subscribe streamName _) as [[e2|] b2]; simpl.
    + split; [discriminate|]. intros [_ [_ E]]. discriminate E.
    + split; [|reflexivity]. intros _.
      split; [reflexivity|]. split; [discriminate|reflexivity].
Qed.

(** C10.  In a run of [subscribeToStream] whose Setup phase went through,
    Subscribe being its last call: as long as no delivery carries an error
    the function has not returned; at the first delivery that carries one it
    returns that error as it is, the handler having run on the messages
    delivered before it and on nothing else (unless the handler panicked on
    one of them); and nil is never returned. *)
Theorem subscribeToStream_returns_first_delivery_error (B : Type) (HC : Client B)
    (streamName subjectName : string) (handler : Handler)
    (endPointAddress : string) (createStream : bool) (w : World B) :
  fst (setupSession streamName subjectName endPointAddress createStream w) = None ->
  let w0 := snd (setupSession streamName subjectName endPointAddress createStream w) in
  let run := fun ds : list Delivery =>
    subscribeToStream streamName subjectName handler endPointAddress createStream ds w in
  (forall ds : list Delivery,
     Forall noError ds -> forall err : option error, fst (run ds) <> Returned err)
  /\ (forall (ms : list (option Message)) (m : option Message) (e : error)
             (rest : list Delivery),
        match runHandler handler ms w0 with
        | Some w' => run (map message ms ++ (m, Some e) :: rest) = (Returned (Some e), w')
        | None => fst (run (map message ms ++ (m, Some e) :: rest)) = Panicked
        end)
  /\ (forall ds : list Delivery, fst (run ds) <> Returned None).
Proof.
  intros Hsetup w0 run. subst run. split; [|split].
  - intros ds Hall err. rewrite subscribeToStream_phases. simpl.
    rewrite Hsetup. apply deliver_noError. exact Hall.
  - intros ms m e rest. rewrite subscribeToStream_phases. simpl.
    rewrite Hsetup. fold w0. rewrite deliver_app.
    pose proof (deliver_messages handler ms w0) as Hms.
    destruct (runHandler handler ms w0) as [w'|].
    + rewrite Hms. reflexivity.
    + destruct (deliver handler (map message ms) w0) as [o w']. simpl in Hms.
      subst o. reflexivity.
  - intros ds. apply subscribeToStream_not_nil.
Qed.

Lemma subscribeToStream_returns_first_delivery_error_witness :
  let c := mkContext defaultAddress "foo" "" defaultMessageValue true true false
             [] 0 defaultCursorID 0 defaultAckPolicy in
  let m := Some (mkMessage "bar" 0) in
  let e := ClientError "stream deleted" in
  let ds := [(m, None); (None, Some e); (m, None)] in
  fst (subscribe (B:=MemBroker) c ds (start emptyBroker)) = Returned (Some e)
  /\ stdout (snd (subscribe (B:=MemBroker) c ds (start emptyBroker)))
     = ["Received message with data: bar, offset: 0" +:+ nl].
Proof.
  intros c m e ds.
  assert (Hsetup : fst (setupSession (B:=MemBroker) "foo" "" defaultAddress true
                          (start emptyBroker)) = None).
  { vm_compute. reflexivity. }
  assert (Hrun : subscribeToStream (B:=MemBroker) "foo" "" subscribe_handler
                   defaultAddress true (map message [m] ++ (None, Some e) :: [(m, None)])
                   (start emptyBroker)
                 = (Returned (Some e),
                    say (snd (setupSession (B:=MemBroker) "foo" "" defaultAddress true
                                (start emptyBroker)))
                      ("Received message with data: bar, offset: 0" +:+ nl))).
  { exact (proj1 (proj2 (subscribeToStream_returns_first_delivery_error
             MemBroker MemClient "foo" "" subscribe_handler defaultAddress true
             (start emptyBroker) Hsetup)) [m] None e [(m, None)]). }
  change (subscribe c ds (start emptyBroker))
    with (subscribeToStream (B:=MemBroker) "foo" "" subscribe_handler
            defaultAddress true (map message [m] ++ (None, Some e) :: [(m, None)])
            (start emptyBroker)).
  rewrite Hrun. split; reflexivity.
Defined.

(** A session that is blocked after some deliveries goes on with the next
    ones from the world it is blocked in. *)
Lemma subscribeToStream_continue (B : Type) (HC : Client B)
    (streamName subjectName : string) (handler : Handler)
    (endPointAddress : string) (createStream : bool)
    (ds1 ds2 : list Delivery) (w w1 : World B) :
  subscribeToStream streamName subjectName handler endPointAddress createStream
    ds1 w = (Blocked, w1) ->
  subscribeToStream streamName subjectName handler endPointAddress createStream
    (ds1 ++ ds2) w = deliver handler ds2 w1.
Proof.
  rewrite !subscribeToStream_phases. simpl.
  destruct (fst (setupSession _ _ _ _ w)) as [e|]; [discriminate|].
  intros Hd. rewrite deliver_app, Hd. reflexivity.
Qed.

(** C4.  In an activity stream session that is blocked waiting (Streaming)
    after some deliveries, a message whose payload does not decode is
    reported on standard output and leaves the session blocked waiting; the
    deliveries after it are handled as they would be otherwise, a message
    that decodes being printed with its summary. *)
Theorem malformed_activity_keeps_streaming (B : Type) (HC : Client B)
    (codec : ActivityCodec) (c : Context) (w w1 : World B)
    (ds1 : list Delivery) (m : Message) (e : error) :
  subscribeActivityStream c ds1 w = (Blocked, w1) ->
  Unmarshal (Value m) = Err e ->
  let w2 := say w1 (invalidActivityLine e) in
  subscribeActivityStream c (ds1 ++ [message (Some m)]) w = (Blocked, w2)
  /\ (forall ds2 : list Delivery,
        subscribeActivityStream c (ds1 ++ message (Some m) :: ds2) w
        = deliver subscribeActivityStream_handler ds2 w2)
  /\ (forall (m' : Message) (se : ActivityStreamEvent) (s : string),
        Unmarshal (Value m') = Ok se ->
        activityStr se = Some s ->
        subscribeActivityStream c (ds1 ++ [message (Some m); message (Some m')]) w
        = (Blocked, say w2 (activityLine se s (Offset m')))).
Proof.
  intros Hblocked He w2.
  assert (Hnext : forall ds2 : list Delivery,
            subscribeActivityStream c (ds1 ++ message (Some m) :: ds2) w
            = deliver subscribeActivityStream_handler ds2 w2).
  { intros ds2. unfold subscribeActivityStream in *.
    rewrite (subscribeToStream_continue _ _ _ _ _ _ _ _ _ _ _ Hblocked).
    simpl. rewrite He. reflexivity. }
  split; [|split].
  - apply (Hnext []).
  - exact Hnext.
  - intros m' se s Hse Hs. rewrite Hnext. simpl. rewrite Hse, Hs. reflexivity.
Qed.

Lemma malformed_activity_keeps_streaming_witness :
  let b := mkScript None None None None (Ok 0) in
  let bad := mkMessage "garbage" 0 in
  let good := mkMessage "delete foo" 1 in
  @subscribeActivityStream Script ScriptClient oneEventCodec defaultContext
    ([] ++ [message (Some bad); message (Some good)]) (start b)
  = (Blocked,
     mkWorld b [RpcConnect [defaultAddress]; RpcSubscribe "__activity"]
       [ "Received an invalid activity message from the activity stream: unexpected EOF"
           +:+ nl;
         "Received activity stream message: op: DELETE_STREAM, stream: foo, offset: 1"
           +:+ nl ]).
Proof.
  intros b bad good.
  apply (proj2 (proj2 (malformed_activity_keeps_streaming Script ScriptClient
           oneEventCodec defaultContext (start b)
           (mkWorld b [RpcConnect [defaultAddress]; RpcSubscribe "__activity"] [])
           [] bad (ClientError "unexpected EOF") eq_refl eq_refl))
         good
         (mkActivityStreamEvent ActivityStreamOp_DELETE_STREAM None
            (Some (mkDeleteStreamOp "foo")) None None)
         "stream: foo" eq_refl eq_refl).
Defined.

(** * Properties of the commands *)

(** ** Printing *)

Lemma bindP_pair {A A' : Type} (out : list string) (a : A) (k : A -> Printing A') :
  bindP (out, Some a) k = (out ++ fst (k a), snd (k a)).
Proof. reflexivity. Qed.

Lemma bindP_panic {A A' : Type} (out : list string) (k : A -> Printing A') :
  bindP (out, None) k = (out, None).
Proof. reflexivity. Qed.

(** A sequence of two runs panics exactly when one of them does. *)
Lemma bindP_unit_panics {A : Type} (m : Printing unit) (k : Printing A) :
  snd (bindP m (fun _ => k)) = None <-> snd m = None \/ snd k = None.
Proof.
  destruct m as [out [[]|]]; simpl.
  - split; [intros E; right; exact E|intros [E|E]; [discriminate E|exact E]].
  - split; [intros _; left; reflexivity|intros _; reflexivity].
Qed.

Lemma forEach_panics {A : Type} (l : list A) (body : A -> Printing unit) :
  snd (forEach l body) = None <-> exists x : A, In x l /\ snd (body x) = None.
Proof.
  induction l as [|x l IH]; simpl.
  - split; [discriminate|intros [x [Hx _]]; contradiction].
  - rewrite bindP_unit_panics, IH. split.
    + intros [E|[y [Hy E]]]; [exists x; auto|exists y; auto].
    + intros [y [[<-|Hy] E]]; [left; exact E|right; exists y; auto].
Qed.

Lemma forEach_ok {A : Type} (l : list A) (body : A -> Printing unit)
    (f : A -> list string) :
  (forall x : A, In x l -> body x = (f x, Some tt)) ->
  forEach l body = (flat_map f l, Some tt).
Proof.
  induction l as [|x l IH]; intros Hbody; simpl; [reflexivity|].
  rewrite (Hbody x) by (left; reflexivity).
  rewrite IH by (intros y Hy; apply Hbody; right; exact Hy).
  reflexivity.
Qed.

Lemma forEach_printf {A : Type} (l : list A) (g : A -> string) :
  forEach l (fun x => printf (g x)) = (map g l, Some tt).
Proof.
  induction l as [|x l IH]; simpl; [reflexivity|]. rewrite IH. reflexivity.
Qed.

(** Printing a broker panics exactly on a nil pointer. *)
Lemma printBroker_ok (b : option BrokerInfo) (g : string -> string) :
  b <> None ->
  bindP (brokerString b) (fun s => printf (g s)) = ([g (brokerText b)], Some tt).
Proof. destruct b as [b|]; [reflexivity|intros E; contradiction]. Qed.

Lemma printBroker_panics (b : option BrokerInfo) (g : string -> string) :
  snd (bindP (brokerString b) (fun s => printf (g s))) = None <-> b = None.
Proof.
  destruct b as [b|]; simpl; split; intros E; try reflexivity; discriminate E.
Qed.

Lemma printBrokers_ok (l : list (option BrokerInfo)) (g : string -> string) :
  ~ In None l ->
  forEach l (fun b => bindP (brokerString b) (fun s => printf (g s)))
  = (map (fun b => g (brokerText b)) l, Some tt).
Proof.
  intros Hl.
  rewrite (forEach_ok _ _ (fun b => [g (brokerText b)])).
  - rewrite flat_map_concat_map. rewrite <- (map_map (fun b => g (brokerText b)) (fun s => [s])).
    rewrite <- flat_map_concat_map. f_equal.
    induction (map _ l) as [|s ss IH]; simpl; [reflexivity|]. rewrite IH. reflexivity.
  - intros b Hb. apply printBroker_ok. intros ->. contradiction.
Qed.

Lemma printBrokers_panics (l : list (option BrokerInfo)) (g : string -> string) :
  snd (forEach l (fun b => bindP (brokerString b) (fun s => printf (g s)))) = None
  <-> In None l.
Proof.
  rewrite forEach_panics. split.
  - intros [b [Hb E]]. apply printBroker_panics in E. subst b. exact Hb.
  - intros Hl. exists None. split; [exact Hl|reflexivity].
Qed.

Lemma printf_completes (s : string) : snd (printf s) = None <-> False.
Proof. simpl. split; [discriminate|contradiction]. Qed.

Lemma printPartition_panics (pv : PartitionInfo) :
  snd (printPartition pv) = None <-> In None (partitionBrokers pv).
Proof.
  unfold printPartition, partitionBrokers.
  rewrite bindP_unit_panics, printf_completes.
  destruct (pi_Leader pv) as [leader|]; simpl.
  - rewrite !bindP_unit_panics, !printBrokers_panics, in_app_iff.
    simpl. intuition discriminate.
  - split; [intros _; left; reflexivity|intros _; right; reflexivity].
Qed.

Lemma printPartition_ok (pv : PartitionInfo) :
  ~ In None (partitionBrokers pv) ->
  printPartition pv = (partitionLines pv, Some tt).
Proof.
  unfold printPartition, partitionBrokers, partitionLines. intros Hn.
  assert (Hl : pi_Leader pv <> None) by (intros E; apply Hn; left; exact E).
  assert (Hi : ~ In None (pi_ISR pv)).
  { intros E. apply Hn. right. apply in_or_app. left. exact E. }
  assert (Hr : ~ In None (pi_Replicas pv)).
  { intros E. apply Hn. right. apply in_or_app. right. exact E. }
  rewrite (printBrokers_ok _ (fun s => "     " +:+ s +:+ nl) Hi).
  rewrite (printBrokers_ok _ (fun s => "     " +:+ s +:+ nl) Hr).
  destruct (pi_Leader pv) as [leader|]; [|contradiction].
  unfold brokerString, deref, printf, retP, bindP. simpl.
  rewrite ?app_nil_r, <- ?app_assoc. reflexivity.
Qed.

Lemma printStream_panics (sv : StreamInfo) :
  snd (printStream sv) = None
  <-> In None (flat_map partitionBrokers (si_Partitions sv)).
Proof.
  unfold printStream.
  rewrite !bindP_unit_panics, !printf_completes, forEach_panics, in_flat_map.
  split.
  - intros [[]|[[]|[pv [Hpv E]]]]. exists pv. split; [exact Hpv|].
    apply printPartition_panics. exact E.
  - intros [pv [Hpv E]]. right. right. exists pv. split; [exact Hpv|].
    apply printPartition_panics. exact E.
Qed.

Lemma printStream_ok (sv : StreamInfo) :
  ~ In None (flat_map partitionBrokers (si_Partitions sv)) ->
  printStream sv = (streamLines sv, Some tt).
Proof.
  unfold printStream, streamLines. intros Hn.
  rewrite (forEach_ok _ _ partitionLines).
  - reflexivity.
  - intros pv Hpv. apply printPartition_ok. intros E. apply Hn.
    apply in_flat_map. exists pv. split; assumption.
Qed.

Lemma printMetadata_panics (md : Metadata) :
  snd (printMetadata md) = None <-> In None (metadataBrokers md).
Proof.
  unfold printMetadata, metadataBrokers.
  rewrite !bindP_unit_panics, !printf_completes, forEach_printf,
    printBrokers_panics, forEach_panics, in_app_iff, in_flat_map.
  simpl. split.
  - intros [[]|[E|[[]|[Hb|[[]|[[]|[[sv [Hsv E]]|E]]]]]]]; try discriminate E.
    + left. exact Hb.
    + right. exists sv. split; [exact Hsv|]. apply printStream_panics. exact E.
  - intros [Hb|[sv [Hsv E]]].
    + auto 10.
    + do 6 right. left. exists sv. split; [exact Hsv|].
      apply printStream_panics. exact E.
Qed.

Lemma printMetadata_ok (md : Metadata) :
  ~ In None (metadataBrokers md) ->
  printMetadata md = (metadataLines md, Some None).
Proof.
  unfold printMetadata, metadataBrokers, metadataLines. intros Hn.
  assert (Hb : ~ In None (md_Brokers md)).
  { intros E. apply Hn. apply in_or_app. left. exact E. }
  rewrite forEach_printf.
  rewrite (printBrokers_ok _ (fun s => " " +:+ s +:+ nl) Hb).
  rewrite (forEach_ok _ _ streamLines).
  - unfold printf, retP, bindP. simpl.
    rewrite ?app_nil_r, <- ?app_assoc. reflexivity.
  - intros sv Hsv. apply printStream_ok. intros E. apply Hn.
    apply in_or_app. right. apply in_flat_map. exists sv. split; assumption.
Qed.

(** Whatever the metadata, the addresses are printed before anything can
    go wrong. *)
Lemma printMetadata_begins (md : Metadata) :
  exists rest : list string,
    fst (printMetadata md)
    = ["addresses:" +:+ nl] ++ map (fun addr => " " +:+ addr +:+ nl) (md_Addrs md)
      ++ ["brokers:" +:+ nl] ++ rest.
Proof.
  unfold printMetadata. rewrite forEach_printf.
  unfold printf at 1 2. rewrite !bindP_pair. simpl.
  eexists. reflexivity.
Qed.

Lemma printPartitionMetadata_panics (md : PartitionInfo) :
  snd (printPartitionMetadata md) = None <-> In None (partitionBrokers md).
Proof.
  unfold printPartitionMetadata, partitionBrokers.
  rewrite bindP_unit_panics, printf_completes.
  destruct (pi_Leader md) as [leader|]; simpl.
  - rewrite !bindP_unit_panics, !printBrokers_panics, in_app_iff.
    simpl. intuition discriminate.
  - split; [intros _; left; reflexivity|intros _; right; reflexivity].
Qed.

Lemma printPartitionMetadata_ok (md : PartitionInfo) :
  ~ In None (partitionBrokers md) ->
  printPartitionMetadata md = (partitionMetadataLines md, Some None).
Proof.
  unfold printPartitionMetadata, partitionBrokers, partitionMetadataLines.
  intros Hn.
  assert (Hl : pi_Leader md <> None) by (intros E; apply Hn; left; exact E).
  assert (Hi : ~ In None (pi_ISR md)).
  { intros E. apply Hn. right. apply in_or_app. left. exact E. }
  assert (Hr : ~ In None (pi_Replicas md)).
  { intros E. apply Hn. right. apply in_or_app. right. exact E. }
  rewrite (printBrokers_ok _ (fun s => "  " +:+ s +:+ nl) Hi).
  rewrite (printBrokers_ok _ (fun s => "  " +:+ s +:+ nl) Hr).
  destruct (pi_Leader md) as [leader|]; [|contradiction].
  unfold brokerString, deref, printf, retP, bindP. simpl.
  rewrite ?app_nil_r, <- ?app_assoc. reflexivity.
Qed.

(** Without a leader, [partitionMetadata] prints the partition's id and
    panics. *)
Lemma printPartitionMetadata_leaderless (md : PartitionInfo) :
  pi_Leader md = None ->
  printPartitionMetadata md = ([fmt_int (pi_ID md) +:+ nl], None).
Proof.
  intros E. unfold printPartitionMetadata. rewrite E. reflexivity.
Qed.




(** ** Running the actions *)

Ltac unfold_actions :=
  unfold action, returning, returningA, create, publish, fetchCursor,
    setReadonly, pause, delete, metadata, partitionMetadata, setCursor,
    subscribe, subscribeActivityStream, subscribeToStream in *.

Section ActionRuns.

Context {B : Type} `{Client B} `{AdminClient B} `{ActivityCodec}.

Lemma sayAll_sayAll (w : AdminWorld B) (out1 out2 : list string) :
  sayAll (sayAll w out1) out2 = sayAll w (out1 ++ out2).
Proof. unfold sayAll. simpl. rewrite <- app_assoc. reflexivity. Qed.

Lemma sayAll_nil (w : AdminWorld B) : sayAll w [] = w.
Proof.
  unfold sayAll. rewrite app_nil_r. destruct w as [[b r o] a]. reflexivity.
Qed.

(** The steps that the handlers taking [--create-stream] share: the
    connection, the stream creation if asked for, and then the rest [k]. *)
Lemma setup_run {A : Type} (c : Context) (prefix : string)
    (fail : error -> A) (k : MA B A) (w : AdminWorld B) :
  bindA (liftM (connectToEndpoint (addressFlag c)))
    (fun err =>
       match err with
       | Some err => retA (fail (Wrapf prefix err))
       | None =>
           bindA (if createStreamFlag c
                  then liftM (ensureStreamCreated (streamFlag c) (subjectFlag c))
                  else retA None)
             (fun err =>
                match err with
                | Some err => retA (fail err)
                | None => k
                end)
       end) w
  = setupThen c prefix fail k w.
Proof.
  unfold setupThen, afterCalls, brokerAfterSetup, setupCalls, bindA, liftM, retA.
  rewrite connectToEndpoint_run. simpl.
  destruct (fst (Connect [addressFlag c] (broker (world w)))) as [e0|]; simpl;
    [reflexivity|].
  destruct (createStreamFlag c); simpl; [|reflexivity].
  rewrite ensureStreamCreated_run. simpl.
  match goal with
  | |- context [fst (CreateStream ?s ?n ?b)] =>
      destruct (fst (CreateStream s n b)) as [e1|]
  end; [destruct (isErrStreamExists e1)|]; simpl; rewrite <- app_assoc; reflexivity.
Qed.

Lemma setupThen_ok {A : Type} (c : Context) (prefix : string)
    (fail : error -> A) (k : MA B A) (w : AdminWorld B) :
  setupOk c (broker (world w)) ->
  setupThen c prefix fail k w
  = k (afterCalls w (brokerAfterSetup c (broker (world w))) (setupCalls c)).
Proof.
  intros [Hc Hs]. unfold setupThen. rewrite Hc.
  destruct (createStreamFlag c); [|reflexivity].
  destruct (Hs eq_refl) as [E|E]; simpl in E; rewrite E; reflexivity.
Qed.

Lemma setupThen_not_created {A : Type} (c : Context) (prefix : string)
    (fail : error -> A) (k : MA B A) (w : AdminWorld B) (e : error) :
  fst (Connect [addressFlag c] (broker (world w))) = None ->
  createStreamFlag c = true ->
  fst (CreateStream (subjectFor (streamFlag c) (subjectFlag c)) (streamFlag c)
         (snd (Connect [addressFlag c] (broker (world w))))) = Some e ->
  e <> ErrStreamExists ->
  setupThen c prefix fail k w
  = (fail (Wrapf ("stream creation failed for stream " +:+ streamFlag c) e),
     afterCalls w (brokerAfterSetup c (broker (world w))) (setupCalls c)).
Proof.
  intros Hc Hf He Hne. unfold setupThen. rewrite Hc, Hf, He.
  apply isErrStreamExists_false in Hne. rewrite Hne. reflexivity.
Qed.

(** The operation call of a handler and the wrapping of its error. *)
Lemma operation_run (prefix : string) (r : AdminRpc) (f : B -> option error * B)
    (W : AdminWorld B) :
  bindA (adminCall r f)
    (fun err =>
       match err with
       | Some err => retA (Some (Wrapf prefix err))
       | None => retA None
       end) W
  = (Wrapf prefix <$> fst (f (broker (world W))),
     afterAdminCall W (snd (f (broker (world W)))) r).
Proof.
  unfold bindA, adminCall, retA, afterAdminCall.
  destruct (f (broker (world W))) as [[e|] b']; reflexivity.
Qed.

Lemma setupThen_ext {A : Type} (c : Context) (prefix : string)
    (fail : error -> A) (k k' : MA B A) (w : AdminWorld B) :
  (forall W : AdminWorld B, k W = k' W) ->
  setupThen c prefix fail k w = setupThen c prefix fail k' w.
Proof.
  intros Hk. unfold setupThen. rewrite !Hk. reflexivity.
Qed.

Lemma setReadonly_run (c : Context) (w : AdminWorld B) :
  setReadonly c w =
  setupThen c "set readonly failed" Some
    (fun W =>
       let opts := [Readonly (readonlyFlag c);
                    ReadonlyPartitions (intToInt32Slice (partitionsFlag c))] in
       let r := SetStreamReadonly (streamFlag c) opts (broker (world W)) in
       (Wrapf "set readonly failed" <$> fst r,
        afterAdminCall W (snd r) (RpcSetStreamReadonly (streamFlag c) opts))) w.
Proof.
  unfold setReadonly. cbv zeta. rewrite setup_run.
  apply setupThen_ext. intros W. apply operation_run.
Qed.

Lemma pause_run (c : Context) (w : AdminWorld B) :
  pause c w =
  setupThen c "pause failed" Some
    (fun W =>
       let opts := (if resumeAllFlag c then [ResumeAll] else [])
                   ++ [PausePartitions (intToInt32Slice (partitionsFlag c))] in
       let r := PauseStream (streamFlag c) opts (broker (world W)) in
       (Wrapf "pause failed" <$> fst r,
        afterAdminCall W (snd r) (RpcPauseStream (streamFlag c) opts))) w.
Proof.
  unfold pause. cbv zeta. rewrite setup_run.
  apply setupThen_ext. intros W. rewrite operation_run.
  destruct (resumeAllFlag c); reflexivity.
Qed.

Lemma delete_run (c : Context) (w : AdminWorld B) :
  delete c w =
  setupThen c "delete failed" Some
    (fun W =>
       let r := DeleteStream (streamFlag c) (broker (world W)) in
       (Wrapf "delete failed" <$> fst r,
        afterAdminCall W (snd r) (RpcDeleteStream (streamFlag c)))) w.
Proof.
  unfold delete. cbv zeta. rewrite setup_run.
  apply setupThen_ext. intros W. apply operation_run.
Qed.

Lemma setCursor_run (c : Context) (w : AdminWorld B) :
  setCursor c w =
  setupThen c "setting cursor failed" Some
    (fun W =>
       let r := SetCursor (cursorIDFlag c) (streamFlag c) (int32 (partitionFlag c))
                  (offsetFlag c) (broker (world W)) in
       (Wrapf "setting cursor failed" <$> fst r,
        afterAdminCall W (snd r)
          (RpcSetCursor (cursorIDFlag c) (streamFlag c) (int32 (partitionFlag c))
             (offsetFlag c)))) w.
Proof.
  unfold setCursor. cbv zeta. rewrite setup_run.
  apply setupThen_ext. intros W. apply operation_run.
Qed.

Lemma partitionMetadata_run (c : Context) (w : AdminWorld B) :
  partitionMetadata c w =
  setupThen c "partition metadata fetching failed" (fun e => Returned (Some e))
    (fun W =>
       let r := FetchPartitionMetadata (streamFlag c) (int32 (partitionFlag c))
                  (broker (world W)) in
       let W' := afterAdminCall W (snd r)
                   (RpcFetchPartitionMetadata (streamFlag c) (int32 (partitionFlag c))) in
       match fst r with
       | Err e => (Returned (Some (Wrapf "metadata fetching failed" e)), W')
       | Ok metadata => finish (printPartitionMetadata metadata) W'
       end) w.
Proof.
  unfold partitionMetadata. cbv zeta.
  etransitivity;
    [apply (setup_run c "partition metadata fetching failed"
              (fun e => Returned (Some e)))|].
  apply setupThen_ext. intros W.
  unfold bindA, adminCall, afterAdminCall, retA.
  destruct (FetchPartitionMetadata _ _ _) as [[metadata|e] b']; reflexivity.
Qed.

Lemma metadata_run (c : Context) (w : AdminWorld B) :
  metadata c w =
  match fst (Connect [addressFlag c] (broker (world w))) with
  | Some e =>
      (Returned (Some (Wrapf "metadata fetching failed"
                         (Wrapf ("connection failed with address " +:+ addressFlag c) e))),
       afterCalls w (snd (Connect [addressFlag c] (broker (world w))))
         [RpcConnect [addressFlag c]])
  | None =>
      let W := afterCalls w (snd (Connect [addressFlag c] (broker (world w))))
                 [RpcConnect [addressFlag c]] in
      let r := FetchMetadata (broker (world W)) in
      let W' := afterAdminCall W (snd r) RpcFetchMetadata in
      match fst r with
      | Err e => (Returned (Some (Wrapf "metadata fetching failed" e)), W')
      | Ok metadata => finish (printMetadata metadata) W'
      end
  end.
Proof.
  unfold metadata. unfold bindA at 1. unfold liftM at 1.
  rewrite connectToEndpoint_run. simpl.
  destruct (fst (Connect [addressFlag c] (broker (world w)))) as [e0|];
    [reflexivity|].
  unfold bindA, adminCall, afterAdminCall, afterCalls, retA. simpl.
  destruct (FetchMetadata _) as [[md|e] b']; reflexivity.
Qed.

Lemma publish_run (c : Context) (w : AdminWorld B) :
  liftM (publish c) w =
  setupThen c "publication failed" Some
    (fun W =>
       match ackPolicyStringToAckPolicy (ackPolicyFlag c) with
       | Err e => (Some (Wrapf "publication failed" e), W)
       | Ok opt =>
           let r := Publish (streamFlag c) (messageFlag c) opt (broker (world W)) in
           (match fst r with
            | Some e => if isErrStreamExists e then None
                        else Some (Wrapf "publication failed" e)
            | None => None
            end,
            afterCalls W (snd r) [RpcPublish (streamFlag c) (messageFlag c) opt])
       end) w.
Proof.
  unfold setupThen, afterCalls, brokerAfterSetup, setupCalls, liftM, publish, bind.
  rewrite connectToEndpoint_run. simpl.
  destruct (fst (Connect [addressFlag c] (broker (world w)))) as [e0|]; simpl;
    [reflexivity|].
  destruct (createStreamFlag c); simpl.
  - rewrite ensureStreamCreated_run. simpl.
    match goal with
    | |- context [fst (CreateStream ?s ?n ?b)] =>
        destruct (fst (CreateStream s n b)) as [e1|]
    end; [destruct (isErrStreamExists e1)|]; simpl;
      try (rewrite <- app_assoc; reflexivity);
      (destruct (ackPolicyStringToAckPolicy (ackPolicyFlag c)) as [opt|e2]; simpl;
       [unfold call, ret; simpl;
        destruct (Publish _ _ _ _) as [[e3|] b3]; simpl;
        [destruct (isErrStreamExists e3)|]; simpl;
        rewrite <- !app_assoc; reflexivity
       |rewrite <- app_assoc; reflexivity]).
  - unfold ret at 1.
    destruct (ackPolicyStringToAckPolicy (ackPolicyFlag c)) as [opt|e2]; simpl;
      [|reflexivity].
    unfold call, ret; simpl.
    destruct (Publish _ _ _ _) as [[e3|] b3]; simpl;
      [destruct (isErrStreamExists e3)|]; simpl;
      rewrite <- !app_assoc; reflexivity.
Qed.

(** A subscription once set up: the Subscribe call and then the
    deliveries. *)
Lemma subscribe_run (c : Context) (ds : list Delivery) (w : AdminWorld B) :
  liftM (subscribe c ds) w =
  setupThen c "stream subscription failed" (fun e => Returned (Some e))
    (fun W =>
       let r := Subscribe (streamFlag c) (broker (world W)) in
       let W' := afterCalls W (snd r) [RpcSubscribe (streamFlag c)] in
       match fst r with
       | Some e =>
           (Returned (Some (Wrapf ("stream subscription failed for stream "
                                   +:+ streamFlag c) e)), W')
       | None => liftM (deliver subscribe_handler ds) W'
       end) w.
Proof.
  unfold setupThen, afterCalls, brokerAfterSetup, setupCalls, liftM, subscribe,
    subscribeToStream, bind.
  rewrite connectToEndpoint_run. simpl.
  destruct (fst (Connect [addressFlag c] (broker (world w)))) as [e0|]; simpl;
    [reflexivity|].
  destruct (createStreamFlag c); simpl.
  - rewrite ensureStreamCreated_run. simpl.
    match goal with
    | |- context [fst (CreateStream ?s ?n ?b)] =>
        destruct (fst (CreateStream s n b)) as [e1|]
    end; [destruct (isErrStreamExists e1)|]; simpl;
      try (rewrite <- app_assoc; reflexivity);
      unfold call, ret; simpl;
      destruct (Subscribe _ _) as [[e3|] b3]; simpl;
      rewrite <- !app_assoc; reflexivity.
  - unfold call, ret; simpl.
    destruct (Subscribe _ _) as [[e3|] b3]; simpl;
      rewrite <- !app_assoc; reflexivity.
Qed.

Lemma subscribeActivityStream_run (c : Context) (ds : list Delivery)
    (w : AdminWorld B) :
  liftM (subscribeActivityStream c ds) w =
  let b1 := snd (Connect [addressFlag c] (broker (world w))) in
  match fst (Connect [addressFlag c] (broker (world w))) with
  | Some e =>
      (Returned (Some (Wrapf "stream subscription failed"
                         (Wrapf ("connection failed with address " +:+ addressFlag c) e))),
       afterCalls w b1 [RpcConnect [addressFlag c]])
  | None =>
      let r := Subscribe activityStreamName b1 in
      let W' := afterCalls w (snd r)
                  [RpcConnect [addressFlag c]; RpcSubscribe activityStreamName] in
      match fst r with
      | Some e =>
          (Returned (Some (Wrapf ("stream subscription failed for stream "
                                  +:+ activityStreamName) e)), W')
      | None => liftM (deliver subscribeActivityStream_handler ds) W'
      end
  end.
Proof.
  unfold afterCalls, liftM, subscribeActivityStream, subscribeToStream, bind.
  rewrite connectToEndpoint_run. simpl.
  destruct (fst (Connect [addressFlag c] (broker (world w)))) as [e0|]; simpl;
    [reflexivity|].
  unfold call, ret; simpl.
  destruct (Subscribe _ _) as [[e3|] b3]; simpl;
    rewrite <- !app_assoc; reflexivity.
Qed.


Lemma fetchCursor_runA (c : Context) (w : AdminWorld B) :
  liftM (fetchCursor c) w =
  let b1 := snd (Connect [addressFlag c] (broker (world w))) in
  match fst (Connect [addressFlag c] (broker (world w))) with
  | Some e =>
      (Some (Wrapf "fetching cursor failed"
               (Wrapf ("connection failed with address " +:+ addressFlag c) e)),
       afterCalls w b1 [RpcConnect [addressFlag c]])
  | None =>
      let r := FetchCursor (cursorIDFlag c) (streamFlag c) (int32 (partitionFlag c)) b1 in
      let W' := afterCalls w (snd r)
                  [RpcConnect [addressFlag c];
                   RpcFetchCursor (cursorIDFlag c) (streamFlag c)
                     (int32 (partitionFlag c))] in
      match fst r with
      | Err e =>
          (Some (Wrapf ("stream creation failed for stream " +:+ streamFlag c) e), W')
      | Ok offset => (None, sayAll W' ["offset: " +:+ fmt_int offset +:+ nl])
      end
  end.
Proof.
  unfold liftM, afterCalls, sayAll, fetchCursor, bind.
  rewrite connectToEndpoint_run. simpl.
  destruct (fst (Connect [addressFlag c] (broker (world w)))) as [e0|]; simpl;
    [reflexivity|].
  unfold call, ret, Printf; simpl.
  destruct (FetchCursor _ _ _ _) as [[offset|e] b']; simpl;
    rewrite <- !app_assoc; reflexivity.
Qed.

(** X1.  When the connection cannot be opened, every command returns the
    connection error, wrapped as a connection failure that names the
    address and then under the command's own prefix; it has made no other
    call and printed nothing. *)
Theorem connection_failure_ends_action (cmd : Command) (c : Context)
    (ds : list Delivery) (w : AdminWorld B) (e : error) :
  fst (Connect [addressFlag c] (broker (world w))) = Some e ->
  action cmd c ds w =
  (Returned (Some (Wrapf (connectionFailurePrefix cmd)
                     (Wrapf ("connection failed with address " +:+ addressFlag c) e))),
   afterCalls w (snd (Connect [addressFlag c] (broker (world w))))
     [RpcConnect [addressFlag c]]).
Proof.
  intros Hc. unfold afterCalls.
  destruct cmd; unfold_actions; unfold liftM, bindA, bind, retA, ret;
    rewrite connectToEndpoint_run; simpl; rewrite Hc; reflexivity.
Qed.

Lemma returning_run (m : M B (option error)) (w : AdminWorld B) :
  returning m w = (Returned (fst (liftM m w)), snd (liftM m w)).
Proof.
  unfold returning, bindA, retA. destruct (liftM m w) as [r W]. reflexivity.
Qed.

Lemma returningA_run (m : MA B (option error)) (w : AdminWorld B) :
  returningA m w = (Returned (fst (m w)), snd (m w)).
Proof.
  unfold returningA, bindA, retA. destruct (m w) as [r W]. reflexivity.
Qed.

(** The two message handlers only print. *)
Lemma subscribe_handler_prints (m : option Message) (w w' : World B) :
  subscribe_handler m w = Some w' ->
  rpcs w' = rpcs w /\ broker w' = broker w.
Proof.
  unfold subscribe_handler. destruct m as [m|]; [|discriminate].
  intros E. inversion E. split; reflexivity.
Qed.

Lemma activity_handler_prints (m : option Message) (w w' : World B) :
  subscribeActivityStream_handler m w = Some w' ->
  rpcs w' = rpcs w /\ broker w' = broker w.
Proof.
  unfold subscribeActivityStream_handler. destruct m as [m|]; [|discriminate].
  destruct (Unmarshal (Value m)) as [se|e].
  - destruct (activityStr se); [|discriminate].
    intros E. inversion E. split; reflexivity.
  - intros E. inversion E. split; reflexivity.
Qed.

Lemma deliver_keeps_calls (handler : Handler) (ds : list Delivery) (w : World B) :
  (forall (m : option Message) (w w' : World B),
     handler m w = Some w' -> rpcs w' = rpcs w /\ broker w' = broker w) ->
  rpcs (snd (deliver handler ds w)) = rpcs w
  /\ broker (snd (deliver handler ds w)) = broker w.
Proof.
  intros Hh. revert w. induction ds as [|[m e] ds IH]; intros w; simpl;
    [split; reflexivity|].
  destruct e as [e|]; simpl; [split; reflexivity|].
  destruct (handler m w) as [w'|] eqn:E; [|split; reflexivity].
  destruct (Hh m w w' E) as [Hr Hb]. destruct (IH w') as [Hr' Hb'].
  rewrite Hr', Hb', Hr, Hb. split; reflexivity.
Qed.

Lemma liftM_deliver_calls (handler : Handler) (ds : list Delivery)
    (W : AdminWorld B) :
  (forall (m : option Message) (w w' : World B),
     handler m w = Some w' -> rpcs w' = rpcs w /\ broker w' = broker w) ->
  rpcs (world (snd (liftM (deliver handler ds) W))) = rpcs (world W).
Proof.
  intros Hh. unfold liftM.
  pose proof (deliver_keeps_calls handler ds (world W) Hh) as [Hr _].
  destruct (deliver handler ds (world W)) as [o w']. exact Hr.
Qed.

Lemma createCalls_app (w : World B) (l new : list Rpc) :
  rpcs w = l ++ new ->
  List.filter isCreateStream new = [] ->
  List.filter isCreateStream (rpcs w) = List.filter isCreateStream l.
Proof.
  intros -> Hn. rewrite List.filter_app, Hn. apply app_nil_r.
Qed.

Ltac setup_cases c w :=
  unfold setupThen, afterCalls, afterAdminCall, sayAll, brokerAfterSetup, setupCalls;
  destruct (fst (Connect [addressFlag c] (broker (world w))));
  simpl.

(** X2.  Only [create] makes a CreateStream call that was not asked for:
    every other command makes none unless it takes [--create-stream] and
    the flag is set. *)
Theorem no_stream_created_unasked (cmd : Command) (c : Context)
    (ds : list Delivery) (w : AdminWorld B) :
  cmd <> createCommand ->
  (takesCreateStream cmd = true -> createStreamFlag c = false) ->
  createCalls (world (snd (action cmd c ds w))) = createCalls (world w).
Proof.
  intros Hcmd Hflag. unfold createCalls.
  destruct cmd; try (exfalso; apply Hcmd; reflexivity);
    try specialize (Hflag eq_refl); unfold action;
    rewrite ?returning_run, ?returningA_run; simpl.
  - (* subscribe *)
    rewrite subscribe_run. setup_cases c w; rewrite ?Hflag; simpl.
    + rewrite List.filter_app. apply app_nil_r.
    + destruct (fst (Subscribe _ _)); simpl.
      * rewrite <- app_assoc, List.filter_app. apply app_nil_r.
      * rewrite liftM_deliver_calls by apply subscribe_handler_prints. simpl.
        rewrite <- app_assoc, List.filter_app. apply app_nil_r.
  - (* subscribe-activity-stream *)
    rewrite subscribeActivityStream_run. unfold afterCalls.
    destruct (fst (Connect _ _)); simpl.
    + rewrite List.filter_app. apply app_nil_r.
    + destruct (fst (Subscribe _ _)); simpl.
      * rewrite List.filter_app. apply app_nil_r.
      * rewrite liftM_deliver_calls by apply activity_handler_prints. simpl.
        rewrite List.filter_app. apply app_nil_r.
  - (* publish *)
    rewrite publish_run. setup_cases c w; rewrite ?Hflag; simpl.
    + rewrite List.filter_app. apply app_nil_r.
    + destruct (ackPolicyStringToAckPolicy _); simpl;
        rewrite <- ?app_assoc, List.filter_app; apply app_nil_r.
  - rewrite setReadonly_run. setup_cases c w; rewrite ?Hflag; simpl;
      rewrite List.filter_app; apply app_nil_r.
  - rewrite pause_run. setup_cases c w; rewrite ?Hflag; simpl;
      rewrite List.filter_app; apply app_nil_r.
  - rewrite delete_run. setup_cases c w; rewrite ?Hflag; simpl;
      rewrite List.filter_app; apply app_nil_r.
  - rewrite metadata_run. unfold afterCalls, afterAdminCall, finish, sayAll.
    destruct (fst (Connect _ _)); simpl.
    + rewrite List.filter_app. apply app_nil_r.
    + destruct (fst (FetchMetadata _)); simpl;
        rewrite List.filter_app; apply app_nil_r.
  - rewrite partitionMetadata_run. unfold finish.
    setup_cases c w; rewrite ?Hflag; simpl.
    + rewrite List.filter_app. apply app_nil_r.
    + destruct (fst (FetchPartitionMetadata _ _ _)); simpl;
        rewrite List.filter_app; apply app_nil_r.
  - rewrite setCursor_run. setup_cases c w; rewrite ?Hflag; simpl;
      rewrite List.filter_app; apply app_nil_r.
  - rewrite fetchCursor_runA. unfold afterCalls, sayAll.
    destruct (fst (Connect _ _)); simpl.
    + rewrite List.filter_app. apply app_nil_r.
    + destruct (fst (FetchCursor _ _ _ _)); simpl;
        rewrite List.filter_app; apply app_nil_r.
Qed.

(** X3.  When a command that takes [--create-stream] was given the flag
    and the stream creation fails with an error other than "stream already
    exists", the command returns that error as a stream creation failure
    naming the stream, without the command's own prefix, and it makes no
    further call and prints nothing. *)
Theorem stream_creation_failure_ends_action (cmd : Command) (c : Context)
    (ds : list Delivery) (w : AdminWorld B) (e : error) :
  takesCreateStream cmd = true ->
  fst (Connect [addressFlag c] (broker (world w))) = None ->
  createStreamFlag c = true ->
  fst (CreateStream (subjectFor (streamFlag c) (subjectFlag c)) (streamFlag c)
         (snd (Connect [addressFlag c] (broker (world w))))) = Some e ->
  e <> ErrStreamExists ->
  action cmd c ds w =
  (Returned (Some (Wrapf ("stream creation failed for stream " +:+ streamFlag c) e)),
   afterCalls w (brokerAfterSetup c (broker (world w)))
     [RpcConnect [addressFlag c];
      RpcCreateStream (subjectFor (streamFlag c) (subjectFlag c)) (streamFlag c)]).
Proof.
  intros Hcmd Hc Hf He Hne.
  assert (Hcalls : setupCalls c
                   = [RpcConnect [addressFlag c];
                      RpcCreateStream (subjectFor (streamFlag c) (subjectFlag c))
                        (streamFlag c)]).
  { unfold setupCalls. rewrite Hf. reflexivity. }
  rewrite <- Hcalls.
  destruct cmd; try discriminate Hcmd; unfold action;
    rewrite ?returning_run, ?returningA_run;
    rewrite ?subscribe_run, ?publish_run, ?setReadonly_run, ?pause_run,
      ?delete_run, ?partitionMetadata_run, ?setCursor_run;
    rewrite (setupThen_not_created _ _ _ _ _ e Hc Hf He Hne); reflexivity.
Qed.

(** X4.  Once the setup went through (the connection opened, and the stream
    creation asked for, if any, answered with success or "stream already
    exists"), [setReadonly], [pause], [delete] and [setCursor] make exactly
    one further call: for the stream of the flags, with the partitions
    narrowed to 32 bits, the resume-all option present exactly when the
    flag is set and the partitions option always present.  They return nil
    when the call does and every error of the call, "stream already exists"
    among them, under the command's prefix; they print nothing. *)
Theorem admin_operation_outcome (c : Context) (w : AdminWorld B) :
  setupOk c (broker (world w)) ->
  let W := afterCalls w (brokerAfterSetup c (broker (world w))) (setupCalls c) in
  let b := brokerAfterSetup c (broker (world w)) in
  let roOpts := [Readonly (readonlyFlag c);
                 ReadonlyPartitions (map int32 (partitionsFlag c))] in
  let pauseOpts := (if resumeAllFlag c then [ResumeAll] else [])
                   ++ [PausePartitions (map int32 (partitionsFlag c))] in
  setReadonly c w
  = (Wrapf "set readonly failed" <$> fst (SetStreamReadonly (streamFlag c) roOpts b),
     afterAdminCall W (snd (SetStreamReadonly (streamFlag c) roOpts b))
       (RpcSetStreamReadonly (streamFlag c) roOpts))
  /\ pause c w
  = (Wrapf "pause failed" <$> fst (PauseStream (streamFlag c) pauseOpts b),
     afterAdminCall W (snd (PauseStream (streamFlag c) pauseOpts b))
       (RpcPauseStream (streamFlag c) pauseOpts))
  /\ delete c w
  = (Wrapf "delete failed" <$> fst (DeleteStream (streamFlag c) b),
     afterAdminCall W (snd (DeleteStream (streamFlag c) b))
       (RpcDeleteStream (streamFlag c)))
  /\ setCursor c w
  = (Wrapf "setting cursor failed"
       <$> fst (SetCursor (cursorIDFlag c) (streamFlag c) (int32 (partitionFlag c))
                  (offsetFlag c) b),
     afterAdminCall W
       (snd (SetCursor (cursorIDFlag c) (streamFlag c) (int32 (partitionFlag c))
               (offsetFlag c) b))
       (RpcSetCursor (cursorIDFlag c) (streamFlag c) (int32 (partitionFlag c))
          (offsetFlag c))).
Proof.
  intros Hok. simpl.
  rewrite setReadonly_run, pause_run, delete_run, setCursor_run.
  rewrite !setupThen_ok by exact Hok. simpl.
  rewrite !intToInt32Slice_map. repeat split; reflexivity.
Qed.

Local Opaque printMetadata printPartitionMetadata.


Local Transparent printMetadata printPartitionMetadata.

Ltac same_flags Hsame :=
  try (pose proof (Hsame Flag_address ltac:(simpl; tauto)));
  try (pose proof (Hsame Flag_stream ltac:(simpl; tauto)));
  try (pose proof (Hsame Flag_subject ltac:(simpl; tauto)));
  try (pose proof (Hsame Flag_message ltac:(simpl; tauto)));
  try (pose proof (Hsame Flag_createStream ltac:(simpl; tauto)));
  try (pose proof (Hsame Flag_readonly ltac:(simpl; tauto)));
  try (pose proof (Hsame Flag_resumeAll ltac:(simpl; tauto)));
  try (pose proof (Hsame Flag_partitions ltac:(simpl; tauto)));
  try (pose proof (Hsame Flag_partition ltac:(simpl; tauto)));
  try (pose proof (Hsame Flag_cursorID ltac:(simpl; tauto)));
  try (pose proof (Hsame Flag_offset ltac:(simpl; tauto)));
  try (pose proof (Hsame Flag_ackPolicy ltac:(simpl; tauto)));
  clear Hsame.

(** X6.  What a command does depends on the flags that the command (or the
    application) declares and on no other: two invocations that give each
    of these flags the same value run alike. *)
Theorem action_reads_declared_flags (cmd : Command) (c c' : Context)
    (ds : list Delivery) (w : AdminWorld B) :
  (forall f : Flag, In f (commandFlags cmd ++ appFlags) -> sameFlag f c c') ->
  action cmd c ds w = action cmd c' ds w.
Proof.
  intros Hsame.
  destruct cmd; same_flags Hsame; unfold sameFlag in *;
    destruct c, c'; simpl in *; subst; reflexivity.
Qed.

(** X7.  The partition flags are narrowed to 32 bits before use: two
    invocations whose [--partition] values, and whose [--partitions] lists
    element by element, have the same low 32 bits run alike, so that
    [--partition 4294967296] addresses partition 0. *)
Theorem partition_flags_wrap (cmd : Command) (c : Context) (partition : Z)
    (partitions : list Z) (ds : list Delivery) (w : AdminWorld B) :
  int32 partition = int32 (partitionFlag c) ->
  map int32 partitions = map int32 (partitionsFlag c) ->
  action cmd (withPartitions c partition partitions) ds w = action cmd c ds w.
Proof.
  intros Hp Hps.
  destruct cmd; unfold action, returning, returningA, create, publish, fetchCursor,
    setReadonly, pause, delete, metadata, partitionMetadata, setCursor,
    subscribe, subscribeActivityStream; cbv zeta; unfold withPartitions;
    cbn [addressFlag streamFlag subjectFlag messageFlag createStreamFlag
         readonlyFlag resumeAllFlag partitionsFlag partitionFlag cursorIDFlag
         offsetFlag ackPolicyFlag];
    rewrite ?intToInt32Slice_map, ?Hp, ?Hps; reflexivity.
Qed.

Lemma liftM_proj {A : Type} (m : M B A) (W : AdminWorld B) :
  fst (liftM m W) = fst (m (world W))
  /\ world (snd (liftM m W)) = snd (m (world W)).
Proof.
  unfold liftM. destruct (m (world W)) as [a w']. split; reflexivity.
Qed.

(** A [setCursor] that returned nil has made its SetCursor call, which
    succeeded. *)
Lemma setCursor_nil (c : Context) (w : AdminWorld B) :
  fst (setCursor c w) = None ->
  exists W : AdminWorld B,
    let r := SetCursor (cursorIDFlag c) (streamFlag c) (int32 (partitionFlag c))
               (offsetFlag c) (broker (world W)) in
    fst r = None
    /\ broker (world (snd (setCursor c w))) = snd r
    /\ stdout (world (snd (setCursor c w))) = stdout (world w).
Proof.
  rewrite setCursor_run. unfold setupThen.
  destruct (fst (Connect [addressFlag c] (broker (world w)))) as [e0|];
    [discriminate|].
  set (W := afterCalls w (brokerAfterSetup c (broker (world w))) (setupCalls c)).
  assert (Hgo :
    fst (Wrapf "setting cursor failed"
           <$> fst (SetCursor (cursorIDFlag c) (streamFlag c)
                      (int32 (partitionFlag c)) (offsetFlag c) (broker (world W))),
         afterAdminCall W
           (snd (SetCursor (cursorIDFlag c) (streamFlag c)
                   (int32 (partitionFlag c)) (offsetFlag c) (broker (world W))))
           (RpcSetCursor (cursorIDFlag c) (streamFlag c)
              (int32 (partitionFlag c)) (offsetFlag c))) = None ->
    exists W0 : AdminWorld B,
      fst (SetCursor (cursorIDFlag c) (streamFlag c) (int32 (partitionFlag c))
             (offsetFlag c) (broker (world W0))) = None
      /\ snd (SetCursor (cursorIDFlag c) (streamFlag c) (int32 (partitionFlag c))
                (offsetFlag c) (broker (world W)))
         = snd (SetCursor (cursorIDFlag c) (streamFlag c) (int32 (partitionFlag c))
                  (offsetFlag c) (broker (world W0)))).
  { simpl. intros Hr. exists W. split; [|reflexivity].
    destruct (fst (SetCursor _ _ _ _ _)); [discriminate Hr|reflexivity]. }
  destruct (createStreamFlag c); simpl.
  - destruct (fst (CreateStream _ _ _)) as [e1|]; simpl;
      [destruct (isErrStreamExists e1); [|discriminate]|]; intros Hr;
      destruct (Hgo Hr) as [W0 [Hfst Hsnd]]; exists W0; simpl;
      (split; [exact Hfst|split; [exact Hsnd|reflexivity]]).
  - intros Hr. destruct (Hgo Hr) as [W0 [Hfst Hsnd]]. exists W0. simpl.
    split; [exact Hfst|split; [exact Hsnd|reflexivity]].
Qed.

(** X8.  Against a broker that keeps its cursors, a [set-cursor] that
    returned nil followed by a [fetch-cursor] for the same cursor id and
    stream and a partition with the same low 32 bits, over a connection
    that opens, prints the offset that was set and returns nil. *)
Theorem set_then_fetch_cursor (HK : KeepsCursors B) (c c' : Context)
    (ds ds' : list Delivery) (w : AdminWorld B) :
  fst (action setCursorCommand c ds w) = Returned None ->
  cursorIDFlag c' = cursorIDFlag c ->
  streamFlag c' = streamFlag c ->
  int32 (partitionFlag c') = int32 (partitionFlag c) ->
  let W1 := snd (action setCursorCommand c ds w) in
  fst (Connect [addressFlag c'] (broker (world W1))) = None ->
  fst (action fetchCursorCommand c' ds' W1) = Returned None
  /\ stdout (world (snd (action fetchCursorCommand c' ds' W1)))
     = stdout (world W1) ++ ["offset: " +:+ fmt_int (offsetFlag c) +:+ nl].
Proof.
  unfold action. rewrite !returningA_run. simpl.
  intros Hset Hid Hstream Hp Hc.
  assert (Hnil : fst (setCursor c w) = None).
  { destruct (fst (setCursor c w)); [discriminate Hset|reflexivity]. }
  destruct (setCursor_nil c w Hnil) as [W [Hr [Hb _]]]. simpl in Hr, Hb.
  rewrite returning_run. simpl. rewrite fetchCursor_runA. simpl.
  rewrite Hc, Hid, Hstream, Hp.
  rewrite Hb in Hc |- *.
  rewrite (fetch_after_set _ _ _ _ _ _ Hr Hc). simpl. split; reflexivity.
Qed.

Lemma sayAllW_cons (w : World B) (s : string) (out : list string) :
  sayAllW (say w s) out = sayAllW w (s :: out).
Proof. unfold sayAllW, say, Printf. simpl. rewrite <- app_assoc. reflexivity. Qed.

Lemma sayAllW_nil (w : World B) : sayAllW w [] = w.
Proof. unfold sayAllW. rewrite app_nil_r. destruct w. reflexivity. Qed.

(** The deliveries of messages to [subscribe]: a line each, and on. *)
Lemma deliver_subscribe_messages (ms : list Message) (rest : list Delivery)
    (w : World B) :
  deliver subscribe_handler (map (fun m => message (Some m)) ms ++ rest) w
  = deliver subscribe_handler rest (sayAllW w (map messageLine ms)).
Proof.
  revert w. induction ms as [|m ms IH]; intros w; simpl.
  - rewrite sayAllW_nil. reflexivity.
  - rewrite IH. unfold messageLine at 2. rewrite <- sayAllW_cons. reflexivity.
Qed.

(** X9.  In a [subscribe] session that is set up, the messages delivered
    are printed one line each, with their data and offset, in the order of
    delivery, and the session goes on waiting; the first delivery of an
    error ends it with that error, nothing more being printed. *)
Theorem subscribe_prints_in_order (c : Context) (ms : list Message)
    (w w0 : World B) :
  subscribe c [] w = (Blocked, w0) ->
  subscribe c (map (fun m => message (Some m)) ms) w
  = (Blocked, sayAllW w0 (map messageLine ms))
  /\ (forall (m : option Message) (e : error) (rest : list Delivery),
        subscribe c (map (fun m => message (Some m)) ms ++ (m, Some e) :: rest) w
        = (Returned (Some e), sayAllW w0 (map messageLine ms))).
Proof.
  intros Hset. unfold subscribe in *.
  pose proof (fun ds2 : list Delivery =>
                subscribeToStream_continue B _ _ _ _ _ _ [] ds2 w w0 Hset) as Hgo.
  simpl in Hgo. split.
  - rewrite Hgo. rewrite <- (app_nil_r (map _ ms)).
    rewrite deliver_subscribe_messages. reflexivity.
  - intros m e rest. rewrite Hgo.
    rewrite deliver_subscribe_messages. reflexivity.
Qed.

(** X10.  When the Setup phase of [subscribeToStream] fails, the run
    returns its error whatever the handler and the deliveries: the handler
    is not run and nothing is printed.  The error is the connection
    failure under "stream subscription failed", or the stream creation
    failure as it is, or the error of Subscribe under "stream subscription
    failed for stream <name>". *)
Theorem setup_failure_is_terminal (streamName subjectName : string)
    (endPointAddress : string) (createStream : bool) (w : World B) (e : error) :
  fst (setupSession streamName subjectName endPointAddress createStream w) = Some e ->
  let w' := snd (setupSession streamName subjectName endPointAddress createStream w) in
  (forall (handler : Handler) (ds : list Delivery),
     subscribeToStream streamName subjectName handler endPointAddress createStream
       ds w = (Returned (Some e), w'))
  /\ stdout w' = stdout w
  /\ ((exists e0 : error,
         e = Wrapf "stream subscription failed"
               (Wrapf ("connection failed with address " +:+ endPointAddress) e0))
      \/ (exists e0 : error,
            createStream = true /\ e0 <> ErrStreamExists
            /\ e = Wrapf ("stream creation failed for stream " +:+ streamName) e0)
      \/ (exists e0 : error,
            e = Wrapf ("stream subscription failed for stream " +:+ streamName) e0)).
Proof.
  intros Hfail w'. split.
  { intros handler ds. rewrite subscribeToStream_phases. simpl.
    rewrite Hfail. reflexivity. }
  subst w'. revert Hfail.
  unfold setupSession, subscribeToStream, bind.
  rewrite connectToEndpoint_run. simpl.
  destruct (fst (Connect [endPointAddress] (broker w))) as [e0|]; simpl.
  { intros E. inversion E. split; [reflexivity|]. left. exists e0. reflexivity. }
  destruct createStream.
  - rewrite ensureStreamCreated_run. simpl.
    match goal with
    | |- context [fst (CreateStream ?s ?n ?b)] =>
        destruct (fst (CreateStream s n b)) as [e1|]
    end; [destruct (isErrStreamExists e1) eqn:Ex|]; simpl.
    + unfold call. simpl. destruct (Subscribe streamName _) as [[e2|] b2]; simpl;
        [|discriminate].
      intros E. inversion E. split; [reflexivity|]. right. right.
      exists e2. reflexivity.
    + intros E. inversion E. split; [reflexivity|]. right. left.
      exists e1. split; [reflexivity|]. split; [|reflexivity].
      apply isErrStreamExists_false. exact Ex.
    + unfold call. simpl. destruct (Subscribe streamName _) as [[e2|] b2]; simpl;
        [|discriminate].
      intros E. inversion E. split; [reflexivity|]. right. right.
      exists e2. reflexivity.
  - unfold ret, call. simpl.
    destruct (Subscribe streamName _) as [[e2|] b2]; simpl; [|discriminate].
    intros E. inversion E. split; [reflexivity|]. right. right.
    exists e2. reflexivity.
Qed.

Lemma setupOk_dec (c : Context) (b : B) : setupOk c b \/ ~ setupOk c b.
Proof.
  unfold setupOk.
  destruct (fst (Connect [addressFlag c] b)) as [e0|];
    [right; intros [E _]; discriminate E|].
  destruct (createStreamFlag c);
    [|left; split; [reflexivity|intros E; discriminate E]].
  simpl. destruct (fst (CreateStream _ _ _)) as [e1|].
  - destruct (isErrStreamExists e1) eqn:Ex.
    + apply isErrStreamExists_true in Ex. subst e1.
      left. split; [reflexivity|]. intros _. right. reflexivity.
    + apply isErrStreamExists_false in Ex. right. intros [_ Hs].
      destruct (Hs eq_refl) as [E|E]; [discriminate E|].
      inversion E. contradiction.
  - left. split; [reflexivity|]. intros _. left. reflexivity.
Qed.

(** What [publish] leaves behind once the setup went through and the token
    resolved. *)
Lemma publish_through (c : Context) (w : World B) (opt : MessageOption) :
  setupOk c (broker w) ->
  ackPolicyStringToAckPolicy (ackPolicyFlag c) = Ok opt ->
  let r := Publish (streamFlag c) (messageFlag c) opt
             (brokerAfterSetup c (broker w)) in
  publish c w
  = (match fst r with
     | Some e => if isErrStreamExists e then None
                 else Some (Wrapf "publication failed" e)
     | None => None
     end,
     mkWorld (snd r)
       (rpcs w ++ setupCalls c ++ [RpcPublish (streamFlag c) (messageFlag c) opt])
       (stdout w)).
Proof.
  intros Hok Hopt.
  pose proof (liftM_proj (publish c) (mkAdminWorld w [])) as [Hfst Hsnd].
  simpl in Hfst, Hsnd. rewrite publish_run in Hfst, Hsnd.
  rewrite setupThen_ok in Hfst, Hsnd by exact Hok.
  rewrite Hopt in Hfst, Hsnd. cbv zeta in *.
  destruct (publish c w) as [a w']. simpl in Hfst, Hsnd. subst a w'.
  rewrite <- app_assoc. reflexivity.
Qed.

(** What [publish] leaves behind once the setup went through and the token
    did not resolve. *)
Lemma publish_invalid_token (c : Context) (w : World B) :
  setupOk c (broker w) ->
  ~ validAckPolicy (ackPolicyFlag c) ->
  snd (publish c w)
  = mkWorld (brokerAfterSetup c (broker w)) (rpcs w ++ setupCalls c) (stdout w).
Proof.
  intros Hok Hinv.
  pose proof (liftM_proj (publish c) (mkAdminWorld w [])) as [_ Hsnd].
  simpl in Hsnd. rewrite publish_run in Hsnd.
  rewrite setupThen_ok in Hsnd by exact Hok.
  rewrite (ackPolicy_invalid _ Hinv) in Hsnd.
  simpl in Hsnd. rewrite <- Hsnd. reflexivity.
Qed.

(** X11.  When the setup goes through and the token resolves, [publish]
    hands the broker one Publish call, for the stream and the message of
    the flags and with the acknowledgement policy that the token resolves
    to: the broker it leaves is the one that call leaves, and the call is
    logged after those of the setup.  When the setup does not go through,
    or the token is invalid, it makes no Publish call; with an invalid
    token the broker stays as the setup left it. *)
Theorem publish_makes_one_call (c : Context) (w : World B) :
  (forall opt : MessageOption,
     setupOk c (broker w) ->
     ackPolicyStringToAckPolicy (ackPolicyFlag c) = Ok opt ->
     let r := Publish (streamFlag c) (messageFlag c) opt
                (brokerAfterSetup c (broker w)) in
     snd (publish c w)
     = mkWorld (snd r)
         (rpcs w ++ setupCalls c ++ [RpcPublish (streamFlag c) (messageFlag c) opt])
         (stdout w)
     /\ publishCalls (snd (publish c w))
        = publishCalls w ++ [RpcPublish (streamFlag c) (messageFlag c) opt])
  /\ (~ setupOk c (broker w) ->
      publishCalls (snd (publish c w)) = publishCalls w)
  /\ (~ validAckPolicy (ackPolicyFlag c) ->
      publishCalls (snd (publish c w)) = publishCalls w)
  /\ (~ validAckPolicy (ackPolicyFlag c) ->
      setupOk c (broker w) ->
      snd (publish c w)
      = mkWorld (brokerAfterSetup c (broker w)) (rpcs w ++ setupCalls c) (stdout w)).
Proof.
  split; [|split; [|split]].
  - intros opt Hok Hopt. cbv zeta.
    rewrite (publish_through c w opt Hok Hopt). cbv zeta. simpl.
    split; [reflexivity|].
    unfold publishCalls, setupCalls. simpl.
    rewrite !List.filter_app. simpl.
    destruct (createStreamFlag c); reflexivity.
  - pose proof (liftM_proj (publish c) (mkAdminWorld w [])) as [_ Hsnd].
    simpl in Hsnd. rewrite <- Hsnd. rewrite publish_run. unfold publishCalls.
    intros Hno.
    unfold setupThen, afterCalls, brokerAfterSetup, setupCalls, setupOk in *.
    simpl in *.
    destruct (fst (Connect [addressFlag c] (broker w))) as [e0|]; simpl.
    { rewrite List.filter_app. apply app_nil_r. }
    destruct (createStreamFlag c); simpl.
    + destruct (fst (CreateStream _ _ _)) as [e1|] eqn:Ec.
      * destruct (isErrStreamExists e1) eqn:Ex.
        -- exfalso. apply Hno. split; [reflexivity|]. intros _. right.
           apply isErrStreamExists_true in Ex. subst e1. reflexivity.
        -- simpl. rewrite List.filter_app. apply app_nil_r.
      * exfalso. apply Hno. split; [reflexivity|]. intros _. left. reflexivity.
    + exfalso. apply Hno. split; [reflexivity|]. intros E. discriminate E.
  - pose proof (liftM_proj (publish c) (mkAdminWorld w [])) as [_ Hsnd].
    simpl in Hsnd. rewrite <- Hsnd. rewrite publish_run. unfold publishCalls.
    intros Hinv. rewrite (ackPolicy_invalid _ Hinv).
    unfold setupThen, afterCalls, brokerAfterSetup, setupCalls. simpl.
    destruct (fst (Connect [addressFlag c] (broker w))) as [e0|]; simpl.
    { rewrite List.filter_app. apply app_nil_r. }
    destruct (createStreamFlag c); simpl.
    + destruct (fst (CreateStream _ _ _)) as [e1|];
        [destruct (isErrStreamExists e1)|]; simpl;
        rewrite List.filter_app; apply app_nil_r.
    + rewrite List.filter_app. apply app_nil_r.
  - intros Hinv Hok. apply publish_invalid_token; assumption.
Qed.

(** X12.  When the connection opens and FetchMetadata succeeds, [metadata]
    has made that one call and goes through the metadata it was given in
    order.  When no broker pointer of the metadata is nil (the brokers of
    the cluster and every partition's leader, ISRs and replicas), it prints
    all of it, headers and all, and returns nil: no address, broker, stream
    or partition is left out.  When one of the pointers is nil, it panics
    and returns nothing, with the output that precedes the dereference, the
    addresses and the header of the brokers at least, already printed. *)
Theorem metadata_outcome (c : Context) (w : AdminWorld B) (md : Metadata) :
  fst (Connect [addressFlag c] (broker (world w))) = None ->
  let b1 := snd (Connect [addressFlag c] (broker (world w))) in
  fst (FetchMetadata b1) = Ok md ->
  let W' := afterAdminCall (afterCalls w b1 [RpcConnect [addressFlag c]])
              (snd (FetchMetadata b1)) RpcFetchMetadata in
  metadata c w = finish (printMetadata md) W'
  /\ (~ In None (metadataBrokers md) ->
      metadata c w = (Returned None, sayAll W' (metadataLines md)))
  /\ (In None (metadataBrokers md) ->
      fst (metadata c w) = Panicked
      /\ exists rest : list string,
           snd (metadata c w)
           = sayAll W'
               (["addresses:" +:+ nl]
                ++ map (fun addr => " " +:+ addr +:+ nl) (md_Addrs md)
                ++ ["brokers:" +:+ nl] ++ rest))
  /\ (forall addr : string,
        In addr (md_Addrs md) -> In (" " +:+ addr +:+ nl) (metadataLines md))
  /\ (forall broker : BrokerInfo,
        In (Some broker) (md_Brokers md) ->
        In (" " +:+ brokerText (Some broker) +:+ nl) (metadataLines md))
  /\ (forall sv : StreamInfo,
        In sv (md_Streams md) ->
        In (" " +:+ si_Name sv +:+ " (subject: " +:+ si_Subject sv +:+ ")" +:+ nl)
          (metadataLines md)
        /\ forall pv : PartitionInfo,
             In pv (si_Partitions sv) ->
             In ("   " +:+ fmt_int (pi_ID pv) +:+ " " +:+ nl) (metadataLines md)
             /\ forall leader : BrokerInfo,
                  pi_Leader pv = Some leader ->
                  In ("    leader:" +:+ nl +:+ "     "
                      +:+ brokerText (Some leader) +:+ nl) (metadataLines md)).
Proof.
  intros Hc b1 Hmd W'.
  assert (Hrun : metadata c w = finish (printMetadata md) W').
  { rewrite metadata_run. rewrite Hc. cbv zeta. simpl. fold b1. rewrite Hmd.
    reflexivity. }
  split; [exact Hrun|]. split; [|split; [|split; [|split]]].
  - intros Hno. rewrite Hrun. unfold finish.
    rewrite (printMetadata_ok md Hno). reflexivity.
  - intros Hnil. rewrite Hrun. unfold finish. cbv beta.
    rewrite (proj2 (printMetadata_panics md) Hnil).
    split; [reflexivity|].
    destruct (printMetadata_begins md) as [rest Hrest].
    exists rest. rewrite Hrest. reflexivity.
  - intros addr Hin. unfold metadataLines.
    apply in_or_app. right. apply in_or_app. left.
    apply (in_map (fun addr => " " +:+ addr +:+ nl)). exact Hin.
  - intros broker Hin. unfold metadataLines.
    apply in_or_app. right. apply in_or_app. right.
    apply in_or_app. right. apply in_or_app. left.
    apply (in_map (fun broker => " " +:+ brokerText broker +:+ nl)
             (md_Brokers md) (Some broker)).
    exact Hin.
  - intros sv Hin.
    assert (Hsv : forall line : string,
              In line (streamLines sv) -> In line (metadataLines md)).
    { intros line Hl. unfold metadataLines.
      apply in_or_app. right. apply in_or_app. right.
      apply in_or_app. right. apply in_or_app. right.
      apply in_or_app. right. apply in_flat_map. exists sv. split; assumption. }
    split.
    + apply Hsv. unfold streamLines. left. reflexivity.
    + intros pv Hpv.
      assert (Hpl : forall line : string,
                In line (partitionLines pv) -> In line (streamLines sv)).
      { intros line Hl. unfold streamLines. apply in_or_app. right.
        apply in_flat_map. exists pv. split; assumption. }
      split.
      * apply Hsv, Hpl. unfold partitionLines. left. reflexivity.
      * intros leader Hl. apply Hsv, Hpl. unfold partitionLines.
        rewrite Hl. right. left. reflexivity.
Qed.

(** X13.  Once the setup went through, [partitionMetadata] makes one
    FetchPartitionMetadata call for the stream and the partition narrowed
    to 32 bits.  An error of that call is returned under "metadata fetching
    failed", the prefix of [metadata], and nothing is printed.  On success,
    when neither the leader nor an ISR nor a replica of the partition is a
    nil pointer, the partition is printed and nil returned, a zero time
    being printed as "never"; when one of them is nil the command panics
    and returns nothing, and for a partition without a leader it does so
    with the partition's id printed and nothing else. *)
Theorem partitionMetadata_outcome (c : Context) (w : AdminWorld B) :
  setupOk c (broker (world w)) ->
  let W := afterCalls w (brokerAfterSetup c (broker (world w))) (setupCalls c) in
  let r := FetchPartitionMetadata (streamFlag c) (int32 (partitionFlag c))
             (brokerAfterSetup c (broker (world w))) in
  let W' := afterAdminCall W (snd r)
              (RpcFetchPartitionMetadata (streamFlag c) (int32 (partitionFlag c))) in
  partitionMetadata c w
  = match fst r with
    | Err e => (Returned (Some (Wrapf "metadata fetching failed" e)), W')
    | Ok md => finish (printPartitionMetadata md) W'
    end
  /\ (forall md : PartitionInfo,
        fst r = Ok md ->
        ~ In None (partitionBrokers md) ->
        partitionMetadata c w
        = (Returned None, sayAll W' (partitionMetadataLines md)))
  /\ (forall md : PartitionInfo,
        fst r = Ok md ->
        In None (partitionBrokers md) ->
        fst (partitionMetadata c w) = Panicked)
  /\ (forall md : PartitionInfo,
        fst r = Ok md ->
        pi_Leader md = None ->
        partitionMetadata c w
        = (Panicked, sayAll W' [fmt_int (pi_ID md) +:+ nl]))
  /\ (forall md : PartitionInfo,
        IsZero (pet_FirstTime (pi_PauseTimestamps md)) = true ->
        IsZero (pet_LatestTime (pi_PauseTimestamps md)) = true ->
        In (" pause timestamps:" +:+ nl +:+ " first: never, latest: never" +:+ nl)
          (partitionMetadataLines md)).
Proof.
  intros Hok W r W'.
  assert (Hrun : partitionMetadata c w
                 = match fst r with
                   | Err e => (Returned (Some (Wrapf "metadata fetching failed" e)), W')
                   | Ok md => finish (printPartitionMetadata md) W'
                   end).
  { rewrite partitionMetadata_run. rewrite setupThen_ok by exact Hok.
    reflexivity. }
  split; [exact Hrun|]. split; [|split; [|split]].
  - intros md Hmd Hno. rewrite Hrun, Hmd. unfold finish.
    rewrite (printPartitionMetadata_ok md Hno). reflexivity.
  - intros md Hmd Hnil. rewrite Hrun, Hmd. unfold finish. cbv beta.
    rewrite (proj2 (printPartitionMetadata_panics md) Hnil). reflexivity.
  - intros md Hmd Hl. rewrite Hrun, Hmd. unfold finish.
    rewrite (printPartitionMetadata_leaderless md Hl). reflexivity.
  - intros md Hf Hl. unfold partitionMetadataLines.
    apply (in_or_app [_; _; _]). right. apply in_or_app. right.
    apply (in_or_app [_]). right. apply in_or_app. right.
    unfold partitionEventTimestampsToString, timeToString. rewrite Hf, Hl.
    do 5 right. left. reflexivity.
Qed.

End ActionRuns.

(** ** Errors of the Publish call *)




(** ** The resolver and the adapter *)

(** X14.  The resolver maps the three tokens to three different
    acknowledgement policies and reaches every policy: two tokens that
    resolve to the same policy are the same token. *)
Theorem ackPolicy_tokens_distinct :
  (forall (t1 t2 : string) (opt : MessageOption),
     ackPolicyStringToAckPolicy t1 = Ok opt ->
     ackPolicyStringToAckPolicy t2 = Ok opt -> t1 = t2)
  /\ (forall opt : MessageOption,
        exists token : string, ackPolicyStringToAckPolicy token = Ok opt)
  /\ ackPolicyStringToAckPolicy defaultAckPolicy = Ok AckPolicyLeader.
Proof.
  split; [|split].
  - intros t1 t2 opt. unfold ackPolicyStringToAckPolicy.
    destruct (String.eqb_spec t1 "leader") as [->|_];
      [|destruct (String.eqb_spec t1 "all") as [->|_];
        [|destruct (String.eqb_spec t1 "none") as [->|_]; [|discriminate]]];
      (destruct (String.eqb_spec t2 "leader") as [->|_];
       [|destruct (String.eqb_spec t2 "all") as [->|_];
         [|destruct (String.eqb_spec t2 "none") as [->|_]; [|discriminate]]]);
      intros E1 E2; inversion E1; subst opt; try discriminate E2; reflexivity.
  - intros [| |]; [exists "leader"|exists "all"|exists "none"]; reflexivity.
  - reflexivity.
Qed.

Lemma ackPolicy_tokens_distinct_witness :
  ackPolicyStringToAckPolicy "all" = Ok AckPolicyAll /\ "all" = "all".
Proof.
  split; [reflexivity|].
  apply (proj1 ackPolicy_tokens_distinct "all" "all" AckPolicyAll); reflexivity.
Defined.

Lemma int32_periodic (v k : Z) : int32 (v + k * 2 ^ 32) = int32 v.
Proof.
  unfold int32. replace (v + k * 2 ^ 32 + 2 ^ 31) with (v + 2 ^ 31 + k * 2 ^ 32) by lia.
  rewrite Z.mod_add by lia. reflexivity.
Qed.

(** X15.  [intToInt32Slice] converts element by element: it distributes
    over the concatenation of lists, every element of its result lies in
    the range of an [int32], converting its result again changes nothing,
    and two lists whose elements differ by multiples of 2^32 convert to the
    same list. *)
Theorem intToInt32Slice_elementwise (l1 l2 : list Z) :
  intToInt32Slice (l1 ++ l2) = intToInt32Slice l1 ++ intToInt32Slice l2
  /\ Forall int32_range (intToInt32Slice l1)
  /\ intToInt32Slice (intToInt32Slice l1) = intToInt32Slice l1
  /\ (forall ks : list Z,
        length ks = length l1 ->
        intToInt32Slice (zip_with (fun v k => v + k * 2 ^ 32) l1 ks)
        = intToInt32Slice l1).
Proof.
  rewrite !intToInt32Slice_map. split; [apply map_app|].
  split; [|split].
  - induction l1 as [|v l IH]; simpl; constructor;
      [apply int32_in_range|exact IH].
  - induction l1 as [|v l IH]; simpl; [reflexivity|].
    rewrite int32_id by apply int32_in_range. f_equal. exact IH.
  - induction l1 as [|v l IH]; intros [|k ks] Hlen; simpl in *;
      try discriminate Hlen; [reflexivity|].
    rewrite intToInt32Slice_map. simpl. rewrite int32_periodic. f_equal.
    rewrite <- intToInt32Slice_map. apply IH. lia.
Qed.

Lemma intToInt32Slice_elementwise_witness :
  intToInt32Slice [0 + 1 * 2 ^ 32; 5 + (-2) * 2 ^ 32] = intToInt32Slice [0; 5].
Proof.
  apply (proj2 (proj2 (proj2 (intToInt32Slice_elementwise [0; 5] []))) [1; -2]).
  reflexivity.
Defined.

(** ** The command table *)

(** X16.  No two commands share a name or an alias, and within each
    command no two of its flags, the application's flag among them, share a
    name or an alias: a name on the command line selects one command, and a
    flag name after it one flag. *)
Theorem names_are_unambiguous :
  NoDup (flat_map commandNames commands)
  /\ (forall cmd : Command, In cmd commands)
  /\ (forall cmd : Command,
        NoDup (flat_map flagNames (commandFlags cmd ++ appFlags))).
Proof.
  split; [|split].
  - refine (bool_decide_unpack (NoDup _) _). vm_compute. exact I.
  - intros cmd. destruct cmd; simpl; tauto.
  - intros cmd.
    destruct cmd; refine (bool_decide_unpack (NoDup _) _); vm_compute; exact I.
Qed.

(** ** The properties on examples *)

#[export] Instance MemBroker_KeepsCursors : KeepsCursors MemBroker.
Proof.
  split. intros cursorID stream partition offset addrs b _ _. simpl.
  unfold mem_FetchCursor, mem_SetCursor. simpl.
  rewrite lookup_insert_eq. reflexivity.
Qed.

Lemma connection_failure_ends_action_witness :
  fst (action (B:=AdminScript) (H1:=oneEventCodec) deleteCommand defaultContext []
         (startA offline))
  = Returned (Some (Wrapf "delete failed"
                      (Wrapf "connection failed with address 127.0.0.1:9292"
                         (ClientError "no route")))).
Proof.
  exact (f_equal fst
           (@connection_failure_ends_action AdminScript _ _ oneEventCodec
              deleteCommand defaultContext [] (startA offline)
              (ClientError "no route") eq_refl)).
Defined.

Lemma no_stream_created_unasked_witness :
  createCalls (world (snd (action (B:=AdminScript) (H1:=oneEventCodec) pauseCommand
                             defaultContext [] (startA online)))) = [].
Proof.
  apply (@no_stream_created_unasked AdminScript _ _ oneEventCodec pauseCommand
           defaultContext [] (startA online)).
  - discriminate.
  - intros _. reflexivity.
Defined.

Lemma stream_creation_failure_ends_action_witness :
  fst (action (B:=AdminScript) (H1:=oneEventCodec) deleteCommand
         (withCreateStream defaultContext) [] (startA online))
  = Returned (Some (Wrapf "stream creation failed for stream some-stream"
                      (ClientError "no quorum"))).
Proof.
  refine (f_equal fst
            (@stream_creation_failure_ends_action AdminScript _ _ oneEventCodec
               deleteCommand (withCreateStream defaultContext) [] (startA online)
               (ClientError "no quorum") eq_refl eq_refl eq_refl eq_refl _)).
  discriminate.
Defined.

Lemma admin_operation_outcome_witness :
  fst (delete (B:=MemBroker) defaultContext (startA emptyBroker))
  = Some (Wrapf "delete failed" (ClientError "stream does not exist")).
Proof.
  assert (Hok : setupOk (B:=MemBroker) defaultContext
                  (broker (world (startA emptyBroker)))).
  { split; [reflexivity|]. intros E. discriminate E. }
  pose proof (@admin_operation_outcome MemBroker _ _ defaultContext
                (startA emptyBroker) Hok) as [_ [_ [Hdelete _]]].
  rewrite Hdelete. reflexivity.
Defined.


Lemma action_reads_declared_flags_witness :
  action (B:=AdminScript) (H1:=oneEventCodec) metadataCommand defaultContext []
    (startA online)
  = action (B:=AdminScript) (H1:=oneEventCodec) metadataCommand
      (mkContext defaultAddress "foo" "bar" "baz" true false true [1] 2 "c1" 3 "all")
      [] (startA online).
Proof.
  apply (@action_reads_declared_flags AdminScript _ _ oneEventCodec).
  intros f [<-|[]]. reflexivity.
Defined.

Lemma partition_flags_wrap_witness :
  action (B:=AdminScript) (H1:=oneEventCodec) setCursorCommand
    (withPartitions defaultContext 4294967296 []) [] (startA online)
  = action (B:=AdminScript) (H1:=oneEventCodec) setCursorCommand defaultContext []
      (startA online).
Proof.
  apply (@partition_flags_wrap AdminScript _ _ oneEventCodec); reflexivity.
Defined.

Lemma set_then_fetch_cursor_witness :
  let c := mkContext defaultAddress "foo" "" defaultMessageValue false true false
             [] 1 "c1" 42 defaultAckPolicy in
  let W1 := snd (action (B:=MemBroker) (H1:=oneEventCodec) setCursorCommand c []
                   (startA emptyBroker)) in
  fst (action (B:=MemBroker) (H1:=oneEventCodec) fetchCursorCommand c [] W1)
  = Returned None
  /\ stdout (world (snd (action (B:=MemBroker) (H1:=oneEventCodec)
                           fetchCursorCommand c [] W1)))
     = ["offset: 42" +:+ nl].
Proof.
  intros c W1.
  apply (@set_then_fetch_cursor MemBroker _ _ oneEventCodec MemBroker_KeepsCursors
           c c [] [] (startA emptyBroker)); reflexivity.
Defined.

Lemma subscribe_prints_in_order_witness :
  let b := mkScript None None None None (Ok 0) in
  let w0 := mkWorld b [RpcConnect [defaultAddress]; RpcSubscribe "some-stream"] [] in
  subscribe (B:=Script) defaultContext
    (map (fun m => message (Some m)) [mkMessage "a" 0; mkMessage "b" 1]) (start b)
  = (Blocked, sayAllW w0 (map messageLine [mkMessage "a" 0; mkMessage "b" 1])).
Proof.
  intros b w0.
  assert (Hset : subscribe (B:=Script) defaultContext [] (start b) = (Blocked, w0)).
  { vm_compute. reflexivity. }
  apply (proj1 (@subscribe_prints_in_order Script _ defaultContext
                  [mkMessage "a" 0; mkMessage "b" 1] (start b) w0 Hset)).
Defined.

Lemma setup_failure_is_terminal_witness :
  let b := mkScript None None None (Some (ClientError "no such stream")) (Ok 0) in
  fst (subscribeToStream (B:=Script) "foo" "" subscribe_handler defaultAddress
         false [message (Some (mkMessage "a" 0))] (start b))
  = Returned (Some (Wrapf "stream subscription failed for stream foo"
                      (ClientError "no such stream"))).
Proof.
  intros b.
  assert (Hfail : fst (setupSession (B:=Script) "foo" "" defaultAddress false (start b))
                  = Some (Wrapf "stream subscription failed for stream foo"
                            (ClientError "no such stream"))).
  { vm_compute. reflexivity. }
  rewrite (proj1 (@setup_failure_is_terminal Script _ "foo" "" defaultAddress false
                    (start b) _ Hfail)).
  reflexivity.
Defined.

Lemma publish_makes_one_call_witness :
  let c := withCreateStream defaultContext in
  published (broker (snd (publish (B:=MemBroker) c (start emptyBroker))))
  = [("some-stream", "some-value")]
  /\ rpcs (snd (publish (B:=MemBroker) c (start emptyBroker)))
     = [RpcConnect [defaultAddress];
        RpcCreateStream "some-stream" "some-stream";
        RpcPublish "some-stream" "some-value" AckPolicyLeader].
Proof.
  intros c.
  assert (Hok : setupOk (B:=MemBroker) c (broker (start emptyBroker))).
  { split; [reflexivity|]. intros _. left. reflexivity. }
  assert (Hopt : ackPolicyStringToAckPolicy (ackPolicyFlag c) = Ok AckPolicyLeader)
    by reflexivity.
  rewrite (proj1 (proj1 (@publish_makes_one_call MemBroker _ c (start emptyBroker))
                    AckPolicyLeader Hok Hopt)).
  split; vm_compute; reflexivity.
Defined.

Lemma metadata_outcome_witness :
  metadata (B:=AdminScript) defaultContext (startA online)
  = (Returned None,
     mkAdminWorld
       (mkWorld online [RpcConnect [defaultAddress]] (metadataLines smallCluster))
       [RpcFetchMetadata])
  /\ fst (metadata (B:=AdminScript) defaultContext (startA degraded)) = Panicked.
Proof.
  split.
  - assert (Hno : ~ In None (metadataBrokers smallCluster)).
    { vm_compute. intros [E|[E|[E|E]]]; try discriminate E; exact E. }
    assert (Hc : fst (Connect [addressFlag defaultContext]
                        (broker (world (startA online)))) = None)
      by reflexivity.
    assert (Hmd : fst (FetchMetadata
                         (snd (Connect [addressFlag defaultContext]
                                 (broker (world (startA online))))))
                  = Ok smallCluster) by reflexivity.
    rewrite (proj1 (proj2 (@metadata_outcome AdminScript _ _ defaultContext
                             (startA online) smallCluster Hc Hmd)) Hno).
    reflexivity.
  - assert (Hnil : In None (metadataBrokers leaderlessCluster)).
    { right. left. reflexivity. }
    assert (Hc : fst (Connect [addressFlag defaultContext]
                        (broker (world (startA degraded)))) = None)
      by reflexivity.
    assert (Hmd : fst (FetchMetadata
                         (snd (Connect [addressFlag defaultContext]
                                 (broker (world (startA degraded))))))
                  = Ok leaderlessCluster) by reflexivity.
    apply (proj1 (proj1 (proj2 (proj2
             (@metadata_outcome AdminScript _ _ defaultContext
                (startA degraded) leaderlessCluster Hc Hmd))) Hnil)).
Defined.

Lemma partitionMetadata_outcome_witness :
  fst (partitionMetadata (B:=AdminScript) defaultContext (startA online))
  = Returned (Some (Wrapf "metadata fetching failed" (ClientError "unavailable")))
  /\ partitionMetadata (B:=AdminScript) defaultContext (startA degraded)
     = (Panicked,
        mkAdminWorld (mkWorld degraded [RpcConnect [defaultAddress]] ["0" +:+ nl])
          [RpcFetchPartitionMetadata "some-stream" 0]).
Proof.
  split.
  - assert (Hok : setupOk (B:=AdminScript) defaultContext
                    (broker (world (startA online)))).
    { split; [reflexivity|]. intros E. discriminate E. }
    rewrite (proj1 (@partitionMetadata_outcome AdminScript _ _ defaultContext
                      (startA online) Hok)).
    reflexivity.
  - assert (Hok : setupOk (B:=AdminScript) defaultContext
                    (broker (world (startA degraded)))).
    { split; [reflexivity|]. intros E. discriminate E. }
    assert (Hmd : fst (FetchPartitionMetadata (streamFlag defaultContext)
                         (int32 (partitionFlag defaultContext))
                         (brokerAfterSetup defaultContext
                            (broker (world (startA degraded)))))
                  = Ok leaderlessPartition) by reflexivity.
    assert (Hl : pi_Leader leaderlessPartition = None) by reflexivity.
    rewrite (proj1 (proj2 (proj2 (proj2
               (@partitionMetadata_outcome AdminScript _ _ defaultContext
                  (startA degraded) Hok))))
               leaderlessPartition Hmd Hl).
    vm_compute. reflexivity.
Defined.
